(** * Logger: a namespaced façade over the host console

    The repository holds several revisions of one class, [Logger]:
    - 1.1.0  src/src/index.js (part_000 and part_002 are variants of it),
    - 1.2.0  src/unnamed/part_001,
    - 1.3.0  src/unnamed/part_003.
    Each revision is embedded in a module of its own ([V110], [V120],
    [V130]); what they share (JavaScript values, objects, the state and
    exception monad, the console) comes first. *)

From Stdlib Require Import DecimalString.
From stdpp Require Import base option list strings gmap.

Open Scope string_scope.
Set Warnings "-register-all".

(** ** The host *)

(** What the JavaScript engine and the DOM provide and the code only
    uses: numbers with their textual form and truthiness ([0], [-0] and
    [NaN] are falsy), and DOM elements with their textual form. *)
Class Host := {
  number : Type;
  number_toString : number → string;
  number_truthy : number → bool;
  element : Type;
  element_toString : element → string;
}.

(** ** Values *)

Section Values.
Context `{Host}.

(** The values that reach the logger: JSON data (the rules and options
    read from [localStorage] or given by the caller) and DOM elements.
    A nested object keeps its own properties in source order. *)
Inductive value :=
| VUndefined
| VNull
| VBool (b : bool)
| VNum (n : number)
| VStr (s : string)
| VArr (items : list value)
| VObj (fields : list (string * value))
| VElement (e : element).

(** [!v]'s complement: JavaScript truthiness. *)
Definition truthy (v : value) : bool :=
  match v with
  | VUndefined | VNull => false
  | VBool b => b
  | VNum n => number_truthy n
  | VStr s => match s with "" => false | _ => true end
  | VArr _ | VObj _ | VElement _ => true
  end.

(** [v === false]. *)
Definition strict_false (v : value) : bool :=
  match v with VBool false => true | _ => false end.

(** Does the object literal carry an own property of that name? *)
Definition has_own (key : string) (fields : list (string * value)) : bool :=
  existsb (λ kv, String.eqb kv.1 key) fields.

(** The abstract operation ToString, as a template literal or a property
    key applies it; [None] stands for a thrown [TypeError].  An array is
    joined with commas, [null] and [undefined] items giving the empty
    string.  A plain object answers ["[object Object]"] unless an own
    [toString] property shadows the inherited method: the values of this
    model are never callable, and the conversion then throws. *)
Fixpoint ToString (v : value) : option string :=
  match v with
  | VUndefined => Some "undefined"
  | VNull => Some "null"
  | VBool true => Some "true"
  | VBool false => Some "false"
  | VNum n => Some (number_toString n)
  | VStr s => Some s
  | VArr items =>
      String.concat "," <$>
        (fix join (l : list value) : option (list string) :=
           match l with
           | [] => Some []
           | x :: l' =>
               match (match x with
                      | VUndefined | VNull => Some ""
                      | _ => ToString x
                      end), join l' with
               | Some s, Some ss => Some (s :: ss)
               | _, _ => None
               end
           end) items
  | VObj fields =>
      if has_own "toString" fields then None else Some "[object Object]"
  | VElement e => Some (element_toString e)
  end.

(** The method call [v.toString()]: as [ToString], except that [null]
    and [undefined] have no properties, so the call throws. *)
Definition toString (v : value) : option string :=
  match v with
  | VUndefined | VNull => None
  | _ => ToString v
  end.

End Values.

(** The predicates of the package [@~lisfan/validation] the code calls;
    each tests the type tag of its argument. *)
Module validation.
Definition isString `{Host} (v : value) : bool :=
  match v with VStr _ => true | _ => false end.
Definition isBoolean `{Host} (v : value) : bool :=
  match v with VBool _ => true | _ => false end.
Definition isArray `{Host} (v : value) : bool :=
  match v with VArr _ => true | _ => false end.
Definition isPlainObject `{Host} (v : value) : bool :=
  match v with VObj _ => true | _ => false end.
Definition isElement `{Host} (v : value) : bool :=
  match v with VElement _ => true | _ => false end.
End validation.

(** A top-level object (the rules mapping, an options record): its own
    properties by name. *)
Abbreviation obj := (gmap string value).

Section Objects.
Context `{Host}.

(** [o[key]]: an absent property reads as [undefined].  Properties found
    on [Object.prototype] are functions or objects, never booleans, so
    for the tests the logger makes on the result ([=== false],
    [isBoolean], truthiness of [debug]) they read as an absent one. *)
Definition get (o : obj) (key : string) : value :=
  default VUndefined (o !! key).

(** One spread element of an object literal: [{...acc, ...src}].  The
    properties of [src] are defined over those already there. *)
Definition spread (acc src : obj) : obj := src ∪ acc.

End Objects.

Arguments get : simpl never.

(** ** State, exceptions and the console *)

Inductive exn :=
| Error (message : string)
| TypeError.

Inductive outcome (A : Type) :=
| Return (a : A)
| Throw (e : exn).
Arguments Return {A} a.
Arguments Throw {A} e.

(** A reference to a Logger instance. *)
Abbreviation ref := nat.

Section World.
Context `{Host}.

(** One call [console[method](...args)]. *)
Record call := Call { c_method : string; c_args : list value }.

(** The world a revision runs in: its static (class and module level)
    state [S], the [$options] object of every instance created so far,
    and the calls the console has received, oldest first. *)
Record world (S : Type) := World {
  statics : S;
  heap : list obj;
  console : list call;
}.
Arguments World {S}.
Arguments statics {S}.
Arguments heap {S}.
Arguments console {S}.

Definition M (S A : Type) : Type := world S → outcome A * world S.

Definition ret {S A} (a : A) : M S A := λ w, (Return a, w).

Definition bind {S A B} (m : M S A) (k : A → M S B) : M S B :=
  λ w, match m w with
       | (Return a, w') => k a w'
       | (Throw e, w') => (Throw e, w')
       end.

Definition throw {S A} (e : exn) : M S A := λ w, (Throw e, w).

Definition get_statics {S} : M S S := λ w, (Return (statics w), w).

Definition set_statics {S} (s : S) : M S unit :=
  λ w, (Return tt, World s (heap w) (console w)).

(** [new]: the instance's [$options] object is a fresh one. *)
Definition alloc {S} (o : obj) : M S ref :=
  λ w, (Return (length (heap w)), World (statics w) (heap w ++ [o]) (console w)).

(** [this.$options]; reading a property of a missing [$options] is a
    [TypeError]. *)
Definition read_options {S} (this : ref) : M S obj :=
  λ w, match heap w !! this with
       | Some o => (Return o, w)
       | None => (Throw TypeError, w)
       end.

(** [this.$options[key] = v]. *)
Definition write_option {S} (this : ref) (key : string) (v : value) : M S unit :=
  λ w, match heap w !! this with
       | Some o =>
           (Return tt, World (statics w) (<[this := <[key := v]> o]> (heap w)) (console w))
       | None => (Throw TypeError, w)
       end.

(** [console[method](...args)]: the console receives the call.  What the
    host's console then does with it (print it, or throw on a label it
    cannot convert to text, as [console.count] does) is not modelled;
    a statement about a forwarded call is about the call received. *)
Definition console_call {S} (method : string) (args : list value) : M S unit :=
  λ w, (Return tt, World (statics w) (heap w) (console w ++ [Call method args])).

(** A conversion that may throw, inside the monad. *)
Definition or_TypeError {S A} (o : option A) : M S A :=
  match o with
  | Some a => ret a
  | None => throw TypeError
  end.

(** [args.map(f)] for an [f] that may throw: left to right, the first
    failure ends the loop. *)
Fixpoint map_M {S A B} (f : A → M S B) (l : list A) : M S (list B) :=
  match l with
  | [] => ret []
  | x :: l' => bind (f x) (λ y, bind (map_M f l') (λ ys, ret (y :: ys)))
  end.

End World.

Arguments World {_ S}.
Arguments statics {_ S}.
Arguments heap {_ S}.
Arguments console {_ S}.

Notation "'do' x <- m ; k" := (bind m (λ x, k))
  (at level 10, x name, m at level 100, k at level 200,
   format "'[v' 'do'  x  <-  m ; '/' k ']'").
Notation "'run' m ; k" := (bind m (λ _, k))
  (at level 10, m at level 100, k at level 200,
   format "'[v' 'run'  m ; '/' k ']'").

(** The names under which an instance answers, for [logger[m](...args)]. *)
Inductive method :=
| m_log | m_warn | m_trace | m_error | m_info | m_debug | m_table
| m_dir | m_dirxml | m_group | m_groupCollapsed | m_groupEnd | m_count
| m_time | m_timeEnd | m_timeStamp | m_profile | m_profileEnd
| m_assert | m_clear.

Definition method_name (m : method) : string :=
  match m with
  | m_log => "log" | m_warn => "warn" | m_trace => "trace"
  | m_error => "error" | m_info => "info" | m_debug => "debug"
  | m_table => "table" | m_dir => "dir" | m_dirxml => "dirxml"
  | m_group => "group" | m_groupCollapsed => "groupCollapsed"
  | m_groupEnd => "groupEnd" | m_count => "count" | m_time => "time"
  | m_timeEnd => "timeEnd" | m_timeStamp => "timeStamp"
  | m_profile => "profile" | m_profileEnd => "profileEnd"
  | m_assert => "assert" | m_clear => "clear"
  end.

(** How a constructor call passes its [options]: a namespace string, an
    options object, or nothing. *)
Inductive ctor_options `{Host} :=
| Namespace (name : string)
| Options (o : obj)
| Omitted.

(** ** Revision 1.3.0 (src/unnamed/part_003) *)

Module V130.
Section Logger.
Context `{Host}.

(** [LOGGER_RULES] and [IS_DEV] are read once, when the module loads,
    from [localStorage] (and [process.env] for the latter); [IS_DEV] is
    whatever value the [||] leaves, tested for truthiness only. *)
Variable LOGGER_RULES : obj.
Variable IS_DEV : value.

(** The static state: the class fields [Logger.rules] and
    [Logger.options], and the properties [rules] and [options] of [self].
    No [self] is bound in the class body, so in [configRules] and
    [config] the name denotes the global object of the host (the browser
    window), whose properties are absent until assigned. *)
Record statics := Statics {
  Logger_rules : obj;
  Logger_options : obj;
  self_rules : option obj;
  self_options : option obj;
}.

Definition Mx := M statics.

(** [static rules = LOGGER_RULES] and
    [static options = { name: 'logger', debug: true }]. *)
Definition init : world statics :=
  World (Statics LOGGER_RULES
           (<["debug" := VBool true]> (<["name" := VStr "logger"]> ∅))
           None None) [] [].

(** [static configRules(rules)]: [ctr] is [self]. *)
Definition configRules (rules : obj) : Mx unit :=
  do s <- get_statics;
  set_statics
    (Statics (Logger_rules s) (Logger_options s)
       (Some (spread (spread (spread ∅ (default ∅ (self_rules s))) rules)
                LOGGER_RULES))
       (self_options s)).

(** [static config(options)]: [ctr] is [self]. *)
Definition config (options : obj) : Mx unit :=
  do s <- get_statics;
  set_statics
    (Statics (Logger_rules s) (Logger_options s) (self_rules s)
       (Some (spread (spread ∅ (default ∅ (self_options s))) options))).

(** [constructor(options)]: [ctr] is [this.constructor], the class. *)
Definition constructor (options : ctor_options) : Mx ref :=
  do s <- get_statics;
  alloc
    match options with
    | Namespace name => <["name" := VStr name]> (spread ∅ (Logger_options s))
    | Options o => spread (spread ∅ (Logger_options s)) o
    | Omitted => spread (spread ∅ (Logger_options s)) ∅
    end.

(** The getters [$name] and [$debug]. *)
Definition get_name (this : ref) : Mx value :=
  do o <- read_options this; ret (get o "name").

Definition get_debug (this : ref) : Mx value :=
  do o <- read_options this; ret (get o "debug").

Definition isActivated (this : ref) (method : value) : Mx bool :=
  if negb (truthy IS_DEV) then ret false else
  do s <- get_statics;
  do name <- get_name this;
  do key <- or_TypeError (ToString name);
  let status := get (Logger_rules s) key in
  do status <-
    (if truthy method then
       do name <- get_name this;
       do n <- or_TypeError (ToString name);
       do m <- or_TypeError (ToString method);
       let subStatus := get (Logger_rules s) (n +:+ "." +:+ m) in
       ret (if validation.isBoolean subStatus then subStatus else status)
     else ret status);
  if strict_false status then ret false else
  do debug <- get_debug this;
  if negb (truthy debug) then ret false else
  ret true.

(** The private [_actions]. *)
Definition logProxyRun (self : ref) (method color : string)
    (args : list value) : Mx ref :=
  do activated <- isActivated self (VStr method);
  if negb activated then ret self else
  do name <- get_name self;
  do n <- or_TypeError (ToString name);
  let formatStr := "%c[" +:+ n +:+ "]:%c" in
  let args :=
    map (λ arg, if validation.isElement arg then VArr [arg] else arg) args in
  run console_call method
        (VStr formatStr :: VStr ("color: " +:+ color) :: VStr "" :: args);
  ret self.

Definition logFactory (self : ref) (method color : string)
    : list value → Mx ref :=
  λ args, logProxyRun self method color args.

Definition proxyRun (self : ref) (method : string) (args : list value)
    : Mx ref :=
  do activated <- isActivated self (VStr method);
  run (if activated then console_call method args else ret tt);
  ret self.

Definition color (this : ref) (color : value) : Mx (list value → Mx ref) :=
  do c <- or_TypeError (ToString color);
  ret (logFactory this "log" c).

Definition enable (this : ref) : Mx ref :=
  run write_option this "debug" (VBool true); ret this.

Definition disable (this : ref) : Mx ref :=
  run write_option this "debug" (VBool false); ret this.

Definition log (this : ref) (args : list value) : Mx ref :=
  logProxyRun this "log" "lightseagreen" args.

Definition warn (this : ref) (args : list value) : Mx ref :=
  logProxyRun this "warn" "goldenrod" args.

Definition trace (this : ref) (args : list value) : Mx ref :=
  logProxyRun this "trace" "lightseagreen" args.

Definition error (this : ref) (args : list value) : Mx ref :=
  do strings <- map_M (λ value, or_TypeError (toString value)) args;
  let message := String.concat " " strings in
  throw (Error message).

Definition info (this : ref) (args : list value) : Mx ref := log this args.

Definition debug (this : ref) (args : list value) : Mx ref := log this args.

Definition table (this : ref) (data : value) : Mx ref :=
  if validation.isArray data && validation.isPlainObject data
  then log this [data]
  else proxyRun this "table" [data].

Definition dir (this : ref) (args : list value) : Mx ref :=
  proxyRun this "dir" args.

Definition dirxml (this : ref) (args : list value) : Mx ref :=
  proxyRun this "dirxml" args.

Definition group (this : ref) (label : value) : Mx ref :=
  proxyRun this "group" [label].

Definition groupCollapsed (this : ref) (label : value) : Mx ref :=
  proxyRun this "groupCollapsed" [label].

Definition groupEnd (this : ref) : Mx ref := proxyRun this "groupEnd" [].

Definition count (this : ref) (label : value) : Mx ref :=
  proxyRun this "count" [label].

Definition time (this : ref) (label : value) : Mx ref :=
  proxyRun this "time" [label].

Definition timeEnd (this : ref) : Mx ref := proxyRun this "timeEnd" [].

Definition timeStamp (this : ref) (args : list value) : Mx ref :=
  proxyRun this "timeStamp" args.

Definition profile (this : ref) (label : value) : Mx ref :=
  proxyRun this "profile" [label].

Definition profileEnd (this : ref) : Mx ref := proxyRun this "profileEnd" [].

Definition assert (this : ref) (assertion : value) (args : list value)
    : Mx ref :=
  proxyRun this "assert" (assertion :: args).

Definition clear (this : ref) : Mx ref := proxyRun this "clear" [].

(** The call [this[m](...args)]: a parameter the caller leaves out is
    [undefined], arguments beyond the parameters are dropped. *)
Definition invoke (m : method) (this : ref) (args : list value) : Mx ref :=
  let first := hd VUndefined args in
  match m with
  | m_log => log this args
  | m_warn => warn this args
  | m_trace => trace this args
  | m_error => error this args
  | m_info => info this args
  | m_debug => debug this args
  | m_table => table this first
  | m_dir => dir this args
  | m_dirxml => dirxml this args
  | m_group => group this first
  | m_groupCollapsed => groupCollapsed this first
  | m_groupEnd => groupEnd this
  | m_count => count this first
  | m_time => time this first
  | m_timeEnd => timeEnd this
  | m_timeStamp => timeStamp this args
  | m_profile => profile this first
  | m_profileEnd => profileEnd this
  | m_assert => assert this first (tl args)
  | m_clear => clear this
  end.

End Logger.
End V130.

(** ** Revision 1.2.0 (src/unnamed/part_001)

    The configuration, the constructor and the activation check come
    first, the output methods after them. *)

Module V120.
Section Logger.
Context `{Host}.

Variable LOGGER_RULES : obj.
(** [IS_DEV] is imported from [./utils/env]. *)
Variable IS_DEV : value.

(** The module variables [_rules] and [_options] behind the static
    getters [Logger.rules] and [Logger.options]. *)
Record statics := Statics {
  _rules : obj;
  _options : obj;
}.

Definition Mx := M statics.

(** [let _rules = {}] and [let _options = { name: 'logger', debug: true }]. *)
Definition init : world statics :=
  World (Statics ∅ (<["debug" := VBool true]> (<["name" := VStr "logger"]> ∅)))
        [] [].

Definition configRules (rules : obj) : Mx unit :=
  do s <- get_statics;
  set_statics
    (Statics (spread (spread (spread ∅ (_rules s)) rules) LOGGER_RULES)
             (_options s)).

Definition config (options : obj) : Mx unit :=
  do s <- get_statics;
  set_statics
    (Statics (_rules s) (spread (spread ∅ (_options s)) options)).

Definition constructor (options : ctor_options) : Mx ref :=
  do s <- get_statics;
  match options with
  | Namespace name =>
      alloc (<["name" := VStr name]> (spread ∅ (_options s)))
  | Options o => alloc (spread (spread ∅ (_options s)) o)
  | Omitted => alloc (spread (spread ∅ (_options s)) ∅)
  end.

Definition get_name (this : ref) : Mx value :=
  do o <- read_options this; ret (get o "name").

Definition get_debug (this : ref) : Mx value :=
  do o <- read_options this; ret (get o "debug").

Definition isActivated (this : ref) (method : value) : Mx bool :=
  if negb (truthy IS_DEV) then ret false else
  do debug <- get_debug this;
  if negb (truthy debug) then ret false else
  do s <- get_statics;
  do name <- get_name this;
  do key <- or_TypeError (ToString name);
  let status := get (_rules s) key in
  do status <-
    (if truthy method then
       do name <- get_name this;
       do n <- or_TypeError (ToString name);
       do m <- or_TypeError (ToString method);
       let subStatus := get (_rules s) (n +:+ "." +:+ m) in
       ret (if validation.isBoolean subStatus then subStatus else status)
     else ret status);
  if strict_false status then ret false else
  ret true.

Definition enable (this : ref) : Mx ref :=
  run write_option this "debug" (VBool true); ret this.

Definition disable (this : ref) : Mx ref :=
  run write_option this "debug" (VBool false); ret this.

(** The private [_actions] and the output methods: every method takes
    the whole argument list. *)
Definition logProxyRun (self : ref) (method color : string)
    (args : list value) : Mx ref :=
  do activated <- isActivated self (VStr method);
  run (if activated then
         do name <- get_name self;
         do n <- or_TypeError (ToString name);
         let formatStr := "%c[" +:+ n +:+ "]:%c" in
         let args :=
           map (λ arg, if validation.isElement arg then VArr [arg] else arg)
               args in
         console_call method
           (VStr formatStr :: VStr ("color: " +:+ color) :: VStr "" :: args)
       else ret tt);
  ret self.

Definition logFactory (self : ref) (method color : string)
    : list value → Mx ref :=
  λ args, logProxyRun self method color args.

Definition proxyRun (self : ref) (method : string) (args : list value)
    : Mx ref :=
  do activated <- isActivated self (VStr method);
  run (if activated then console_call method args else ret tt);
  ret self.

Definition color (this : ref) (color : value) : Mx (list value → Mx ref) :=
  do c <- or_TypeError (ToString color);
  ret (logFactory this "log" c).

Definition log (this : ref) (args : list value) : Mx ref :=
  logProxyRun this "log" "lightseagreen" args.

Definition warn (this : ref) (args : list value) : Mx ref :=
  logProxyRun this "warn" "goldenrod" args.

Definition trace (this : ref) (args : list value) : Mx ref :=
  logProxyRun this "trace" "lightseagreen" args.

Definition error (this : ref) (args : list value) : Mx ref :=
  do strings <- map_M (λ value, or_TypeError (toString value)) args;
  let message := String.concat " " strings in
  throw (Error message).

Definition info (this : ref) (args : list value) : Mx ref := log this args.

Definition debug (this : ref) (args : list value) : Mx ref := log this args.

Definition table (this : ref) (data : value) : Mx ref :=
  if validation.isArray data && validation.isPlainObject data
  then log this [data]
  else proxyRun this "table" [data].

Definition dir (this : ref) (args : list value) : Mx ref :=
  proxyRun this "dir" args.
Definition dirxml (this : ref) (args : list value) : Mx ref :=
  proxyRun this "dirxml" args.
Definition group (this : ref) (args : list value) : Mx ref :=
  proxyRun this "group" args.
Definition groupCollapsed (this : ref) (args : list value) : Mx ref :=
  proxyRun this "groupCollapsed" args.
Definition groupEnd (this : ref) (args : list value) : Mx ref :=
  proxyRun this "groupEnd" args.
Definition count (this : ref) (args : list value) : Mx ref :=
  proxyRun this "count" args.
Definition time (this : ref) (args : list value) : Mx ref :=
  proxyRun this "time" args.
Definition timeEnd (this : ref) (args : list value) : Mx ref :=
  proxyRun this "timeEnd" args.
Definition timeStamp (this : ref) (args : list value) : Mx ref :=
  proxyRun this "timeStamp" args.
Definition profile (this : ref) (args : list value) : Mx ref :=
  proxyRun this "profile" args.
Definition profileEnd (this : ref) (args : list value) : Mx ref :=
  proxyRun this "profileEnd" args.
Definition assert (this : ref) (args : list value) : Mx ref :=
  proxyRun this "assert" args.
Definition clear (this : ref) (args : list value) : Mx ref :=
  proxyRun this "clear" args.

Definition invoke (m : method) (this : ref) (args : list value) : Mx ref :=
  match m with
  | m_log => log this args
  | m_warn => warn this args
  | m_trace => trace this args
  | m_error => error this args
  | m_info => info this args
  | m_debug => debug this args
  | m_table => table this (hd VUndefined args)
  | m_dir => dir this args
  | m_dirxml => dirxml this args
  | m_group => group this args
  | m_groupCollapsed => groupCollapsed this args
  | m_groupEnd => groupEnd this args
  | m_count => count this args
  | m_time => time this args
  | m_timeEnd => timeEnd this args
  | m_timeStamp => timeStamp this args
  | m_profile => profile this args
  | m_profileEnd => profileEnd this args
  | m_assert => assert this args
  | m_clear => clear this args
  end.

End Logger.
End V120.

(** ** Revision 1.1.0 (src/src/index.js) *)

Module V110.
Section Logger.
Context `{Host}.

(** [JSON.parse(global.localStorage.getItem('LOGGER')) || {}]. *)
Variable LOGGER : obj.
(** [IS_DEV] is imported from [./utils/env]. *)
Variable IS_DEV : value.

(** The one static field, [Logger.options], holds the rules. *)
Record statics := Statics {
  Logger_options : obj;
}.

Definition Mx := M statics.

Definition init : world statics := World (Statics LOGGER) [] [].

(** [static config(options = {})]: the stored entries are spread last. *)
Definition config (options : option obj) : Mx unit :=
  let options := default ∅ options in
  do s <- get_statics;
  set_statics (Statics (spread (spread ∅ options) (Logger_options s))).

Definition constructor (options : ctor_options) : Mx ref :=
  let _options : obj :=
    <["debug" := VBool true]> (<["name" := VStr "logger"]> ∅) in
  match options with
  | Namespace name => alloc (<["name" := VStr name]> _options)
  | Options o => alloc (spread (spread ∅ _options) o)
  | Omitted => alloc (spread (spread ∅ _options) ∅)
  end.

Definition get_name (this : ref) : Mx value :=
  do o <- read_options this; ret (get o "name").

Definition get_debug (this : ref) : Mx value :=
  do o <- read_options this; ret (get o "debug").

(** The setter of [$debug]. *)
Definition set_debug (this : ref) (value : value) : Mx unit :=
  write_option this "debug" value.

Definition isActivated (this : ref) (method : value) : Mx bool :=
  if negb (truthy IS_DEV) then ret false else
  do debug <- get_debug this;
  if negb (truthy debug) then ret false else
  do s <- get_statics;
  do name <- get_name this;
  do key <- or_TypeError (ToString name);
  let status := get (Logger_options s) key in
  do status <-
    (if truthy method then
       do name <- get_name this;
       do n <- or_TypeError (ToString name);
       do m <- or_TypeError (ToString method);
       let subStatus := get (Logger_options s) (n +:+ "." +:+ m) in
       ret (if validation.isBoolean subStatus then subStatus else status)
     else ret status);
  if strict_false status then ret false else
  ret true.

(** The private [_actions]: both return the wrapped method. *)
Definition factory (self : ref) (method color : string)
    : list value → Mx ref :=
  λ args,
    do activated <- isActivated self (VStr method);
    run (if activated then
           do name <- get_name self;
           do n <- or_TypeError (ToString name);
           let formatStr := "%c[" +:+ n +:+ "]:%c" in
           let args :=
             map (λ arg, if validation.isElement arg then VArr [arg] else arg)
                 args in
           console_call method
             (VStr formatStr :: VStr ("color: " +:+ color) :: VStr "" :: args)
         else ret tt);
    ret self.

Definition proxyRun (self : ref) (method : string) : list value → Mx ref :=
  λ args,
    do activated <- isActivated self (VStr method);
    run (if activated then console_call method args else ret tt);
    ret self.

(** The instance fields and methods. *)
Definition log (this : ref) := factory this "log" "lightseagreen".
Definition warn (this : ref) := factory this "warn" "goldenrod".
Definition trace (this : ref) := factory this "trace" "lightseagreen".

Definition error (this : ref) (args : list value) : Mx ref :=
  do strings <- map_M (λ value, or_TypeError (toString value)) args;
  let message := String.concat " " strings in
  throw (Error message).

Definition color (this : ref) (color : value) : Mx (list value → Mx ref) :=
  do c <- or_TypeError (ToString color);
  ret (factory this "log" c).

Definition enable (this : ref) : Mx ref :=
  run set_debug this (VBool true); ret this.

Definition disable (this : ref) : Mx ref :=
  run set_debug this (VBool false); ret this.

Definition info (this : ref) := log this.
Definition debug (this : ref) := log this.

Definition table (this : ref) (data : value) : Mx ref :=
  if validation.isArray data && validation.isPlainObject data
  then log this [data]
  else proxyRun this "table" [data].

Definition dir (this : ref) := proxyRun this "dir".
Definition dirxml (this : ref) := proxyRun this "dirxml".
Definition group (this : ref) := proxyRun this "group".
Definition groupCollapsed (this : ref) := proxyRun this "groupCollapsed".
Definition groupEnd (this : ref) := proxyRun this "groupEnd".
Definition count (this : ref) := proxyRun this "count".
Definition time (this : ref) := proxyRun this "time".
Definition timeEnd (this : ref) := proxyRun this "timeEnd".
Definition timeStamp (this : ref) := proxyRun this "timeStamp".
Definition profile (this : ref) := proxyRun this "profile".
Definition profileEnd (this : ref) := proxyRun this "profileEnd".
Definition assert (this : ref) := proxyRun this "assert".
Definition clear (this : ref) := proxyRun this "clear".

Definition invoke (m : method) (this : ref) (args : list value) : Mx ref :=
  match m with
  | m_log => log this args
  | m_warn => warn this args
  | m_trace => trace this args
  | m_error => error this args
  | m_info => info this args
  | m_debug => debug this args
  | m_table => table this (hd VUndefined args)
  | m_dir => dir this args
  | m_dirxml => dirxml this args
  | m_group => group this args
  | m_groupCollapsed => groupCollapsed this args
  | m_groupEnd => groupEnd this args
  | m_count => count this args
  | m_time => time this args
  | m_timeEnd => timeEnd this args
  | m_timeStamp => timeStamp this args
  | m_profile => profile this args
  | m_profileEnd => profileEnd this args
  | m_assert => assert this args
  | m_clear => clear this args
  end.

End Logger.
End V110.

(** ** A host for the worked examples

    Numbers are the integers in decimal; elements are named by their
    tag. *)
Definition example_host : Host := {|
  number := Z;
  number_toString := λ z, NilZero.string_of_int (Z.to_int z);
  number_truthy := λ z, negb (z =? 0)%Z;
  element := string;
  element_toString := λ tag, "[object " +:+ tag +:+ "]";
|}.

(** ** What the activation check reads

    Of an instance the check reads two properties of [$options]: the
    pair [(name, debug)], or nothing when the reference is dangling. *)
Definition instance_view `{Host} {S} (w : world S) (this : ref)
    : option (value * value) :=
  match heap w !! this with
  | Some o => Some (get o "name", get o "debug")
  | None => None
  end.

(** The status the three revisions resolve from the rules for a name
    and a method, both already converted to text where the code converts
    them: the sub-namespace entry when it is a boolean, the namespace
    entry otherwise. *)
Definition resolve `{Host} (rules : obj) (name : string) (method : value)
    : outcome value :=
  let status := get rules name in
  if truthy method then
    match ToString method with
    | Some m =>
        let subStatus := get rules (name +:+ "." +:+ m) in
        Return (if validation.isBoolean subStatus then subStatus else status)
    | None => Throw TypeError
    end
  else Return status.

(** The answer of [V130.isActivated] as a function of what it reads:
    the rules are consulted before the instance's [debug]. *)
Definition activation_rules_first `{Host} (IS_DEV : value) (rules : obj)
    (inst : option (value * value)) (method : value) : outcome bool :=
  if negb (truthy IS_DEV) then Return false else
  match inst with
  | None => Throw TypeError
  | Some (name, debug) =>
      match ToString name with
      | None => Throw TypeError
      | Some n =>
          match resolve rules n method with
          | Throw e => Throw e
          | Return status =>
              if strict_false status then Return false
              else if negb (truthy debug) then Return false
              else Return true
          end
      end
  end.

(** The answer of [V110.isActivated] and [V120.isActivated]: [debug] is
    tested before anything else is read. *)
Definition activation_debug_first `{Host} (IS_DEV : value) (rules : obj)
    (inst : option (value * value)) (method : value) : outcome bool :=
  if negb (truthy IS_DEV) then Return false else
  match inst with
  | None => Throw TypeError
  | Some (name, debug) =>
      if negb (truthy debug) then Return false else
      match ToString name with
      | None => Throw TypeError
      | Some n =>
          match resolve rules n method with
          | Throw e => Throw e
          | Return status =>
              if strict_false status then Return false else Return true
          end
      end
  end.

(** ** Worked examples: worlds *)

Section Examples.
#[local] Existing Instance example_host.

(** [$options] of [new Logger('request')] under the default options. *)
Definition request_options : obj :=
  <["name" := VStr "request"]>
    (<["debug" := VBool true]> (<["name" := VStr "logger"]> ∅)).

(** A 1.3.0 world with the given rules and the instance above at
    reference 0. *)
Definition world_130 (rules : obj) : world V130.statics :=
  World (V130.Statics rules
           (<["debug" := VBool true]> (<["name" := VStr "logger"]> ∅))
           None None)
        [request_options] [].

Definition world_120 (rules : obj) : world V120.statics :=
  World (V120.Statics rules
           (<["debug" := VBool true]> (<["name" := VStr "logger"]> ∅)))
        [request_options] [].

Definition world_110 (rules : obj) : world V110.statics :=
  World (V110.Statics rules) [request_options] [].

(** Rules that switch the namespace [request] off and its [error] method
    on, and the converse. *)
Definition rules_error_on : obj :=
  <["request.error" := VBool true]> (<["request" := VBool false]> ∅).

Definition rules_error_off : obj :=
  <["request.error" := VBool false]> (<["request" := VBool true]> ∅).

(** The namespace [request] on, one of its methods off. *)
Definition rules_warn_off : obj :=
  <["request.warn" := VBool false]> (<["request" := VBool true]> ∅).

Definition rules_info_off : obj :=
  <["request.info" := VBool false]> (<["request" := VBool true]> ∅).

Definition rules_log_off : obj :=
  <["request.log" := VBool false]> (<["request" := VBool true]> ∅).

(** The patches [{a: true}] and [{a: false}]. *)
Definition a_true : obj := <["a" := VBool true]> ∅.
Definition a_false : obj := <["a" := VBool false]> ∅.

(** The array [[1, 2, 3]]. *)
Definition one_two_three : value := VArr [VNum 1%Z; VNum 2%Z; VNum 3%Z].

(** A mapping whose entries for [request] are not booleans, and one that
    switches the namespace off. *)
Definition rules_malformed : obj :=
  <["request.log" := VNull]> (<["request" := VStr "off"]> ∅).

Definition rules_request_off : obj := <["request" := VBool false]> ∅.

(** An entry under the key an empty method name would build. *)
Definition rules_empty_method_off : obj :=
  <["request." := VBool false]> (<["request" := VBool true]> ∅).

(** [$options] of [new Logger({name: 'response', debug: false})]. *)
Definition response_options : obj :=
  <["debug" := VBool false]> (<["name" := VStr "response"]> ∅).

(** Worlds with the two instances, [request] at 0 and [response] at 1. *)
Definition two_instances_130 : world V130.statics :=
  World (V130.Statics ∅ ∅ None None) [request_options; response_options] [].

Definition two_instances_120 : world V120.statics :=
  World (V120.Statics ∅ ∅) [request_options; response_options] [].

Definition two_instances_110 : world V110.statics :=
  World (V110.Statics ∅) [request_options; response_options] [].

(** A [div] element. *)
Definition a_div : value := VElement "HTMLDivElement".

End Examples.

(** ** Module load and bookkeeping for the properties *)

(** [b === 'development']. *)
Definition is_development `{Host} (v : value) : bool :=
  match v with VStr s => String.eqb s "development" | _ => false end.

(** The constant [IS_DEV] of 1.3.0,
    [JSON.parse(global.localStorage.getItem('IS_DEV'))
       || process.env.NODE_ENV === 'development'],
    from what [JSON.parse] returned ([null] when the key is not stored)
    and the value of [process.env.NODE_ENV]. *)
Definition load_IS_DEV `{Host} (stored NODE_ENV : value) : value :=
  if truthy stored then stored else VBool (is_development NODE_ENV).

(** The console method a Logger method forwards to: its own name, except
    for the aliases of [log]. *)
Definition console_target (m : method) : string :=
  match m with
  | m_info | m_debug => "log"
  | _ => method_name m
  end.

(** The methods built on [logProxyRun] (on [factory] in 1.1.0), with
    the colour of their prefix. *)
Definition prefix_color (m : method) : option string :=
  match m with
  | m_log | m_info | m_debug | m_trace => Some "lightseagreen"
  | m_warn => Some "goldenrod"
  | _ => None
  end.

(** The methods of 1.3.0 that hand their whole argument list to
    [proxyRun]; the others name one parameter or none. *)
Definition variadic_130 (m : method) : bool :=
  match m with
  | m_dir | m_dirxml | m_timeStamp => true
  | _ => false
  end.

(** The number of parameters of the 1.3.0 methods that name them
    ([group(label)], [groupEnd()], ...). *)
Definition parameters_130 (m : method) : option nat :=
  match m with
  | m_group | m_groupCollapsed | m_count | m_time | m_profile => Some 1
  | m_groupEnd | m_timeEnd | m_profileEnd | m_clear => Some 0
  | _ => None
  end.

(** The methods that are [proxyRun] under their own name, apart from
    [table], which takes one datum. *)
Definition pass_through (m : method) : bool :=
  match m with
  | m_dir | m_dirxml | m_group | m_groupCollapsed | m_groupEnd | m_count
  | m_time | m_timeEnd | m_timeStamp | m_profile | m_profileEnd
  | m_assert | m_clear => true
  | _ => false
  end.

(** A sequence of static calls, each run in the world the one before
    left. *)
Definition run_each {S A} `{Host} (call : A → M S unit) (patches : list A)
    (w : world S) : world S :=
  foldl (λ w patch, snd (call patch w)) w patches.

(** One static call of 1.3.0: [configRules(rules)] or [config(options)]. *)
Definition static_call_130 `{Host} (LOGGER_RULES : obj) (patch : obj + obj)
    : M V130.statics unit :=
  match patch with
  | inl rules => V130.configRules LOGGER_RULES rules
  | inr options => V130.config options
  end.

(** * Properties *)

Ltac unfold_monad :=
  unfold or_TypeError, get_statics, set_statics, alloc, read_options,
    write_option, console_call, bind, throw, ret in *.

Ltac step_all := repeat (simpl in *; case_match; simplify_eq); try done.

Section Activation.
Context `{Host}.
Implicit Types (IS_DEV method : value) (this : ref).

(** Each revision's [isActivated] returns the functional answer and
    leaves the world as it found it. *)
Lemma V130_isActivated_run IS_DEV this method (w : world V130.statics) :
  V130.isActivated IS_DEV this method w
  = (activation_rules_first IS_DEV (V130.Logger_rules (statics w))
       (instance_view w this) method, w).
Proof.
  unfold V130.isActivated, V130.get_name, V130.get_debug,
    activation_rules_first, resolve, instance_view.
  unfold_monad. step_all.
Qed.

Lemma V120_isActivated_run IS_DEV this method (w : world V120.statics) :
  V120.isActivated IS_DEV this method w
  = (activation_debug_first IS_DEV (V120._rules (statics w))
       (instance_view w this) method, w).
Proof.
  unfold V120.isActivated, V120.get_name, V120.get_debug,
    activation_debug_first, resolve, instance_view.
  unfold_monad. step_all.
Qed.

Lemma V110_isActivated_run IS_DEV this method (w : world V110.statics) :
  V110.isActivated IS_DEV this method w
  = (activation_debug_first IS_DEV (V110.Logger_options (statics w))
       (instance_view w this) method, w).
Proof.
  unfold V110.isActivated, V110.get_name, V110.get_debug,
    activation_debug_first, resolve, instance_view.
  unfold_monad. step_all.
Qed.

End Activation.

Section Activation_rules.
Context `{Host}.
Implicit Types (IS_DEV : value) (this : ref) (rules : obj) (N M : string).

Lemma truthy_method_name M : M ≠ "" → truthy (VStr M) = true.
Proof. by destruct M. Qed.

(** A boolean sub-namespace entry is the resolved status, whatever the
    namespace entry says. *)
Lemma resolve_sub_boolean rules N M b :
  M ≠ "" →
  rules !! (N +:+ "." +:+ M) = Some (VBool b) →
  resolve rules N (VStr M) = Return (VBool b).
Proof.
  intros HM Hsub. unfold resolve. rewrite (truthy_method_name M HM). simpl.
  unfold get. by rewrite Hsub.
Qed.

Lemma activation_rules_first_sub IS_DEV rules N M b :
  truthy IS_DEV = true → M ≠ "" →
  rules !! (N +:+ "." +:+ M) = Some (VBool b) →
  activation_rules_first IS_DEV rules (Some (VStr N, VBool true)) (VStr M)
  = Return b.
Proof.
  intros Hdev HM Hsub. unfold activation_rules_first.
  rewrite Hdev. simpl. rewrite (resolve_sub_boolean _ _ _ b HM Hsub).
  by destruct b.
Qed.

Lemma activation_debug_first_sub IS_DEV rules N M b :
  truthy IS_DEV = true → M ≠ "" →
  rules !! (N +:+ "." +:+ M) = Some (VBool b) →
  activation_debug_first IS_DEV rules (Some (VStr N, VBool true)) (VStr M)
  = Return b.
Proof.
  intros Hdev HM Hsub. unfold activation_debug_first.
  rewrite Hdev. simpl. rewrite (resolve_sub_boolean _ _ _ b HM Hsub).
  by destruct b.
Qed.

(** C1.  Outside development mode ([IS_DEV] falsy) [isActivated] answers
    [false] for every instance reference, every method argument and every
    world, hence whatever the rules and the instance's [debug] are; this
    holds in the three revisions. *)
Theorem isActivated_false_outside_dev_mode IS_DEV :
  truthy IS_DEV = false →
  (∀ this method (w : world V130.statics),
     V130.isActivated IS_DEV this method w = (Return false, w)) ∧
  (∀ this method (w : world V120.statics),
     V120.isActivated IS_DEV this method w = (Return false, w)) ∧
  (∀ this method (w : world V110.statics),
     V110.isActivated IS_DEV this method w = (Return false, w)).
Proof.
  intros Hdev. repeat split; intros this method w.
  - unfold V130.isActivated. by rewrite Hdev.
  - unfold V120.isActivated. by rewrite Hdev.
  - unfold V110.isActivated. by rewrite Hdev.
Qed.

(** C3.  With development mode on, for an instance named [N] whose
    [debug] is [true] and a method name [M] (a non-empty string), the
    entry ["N.M" = true] makes [isActivated(M)] answer [true] whatever
    the rules hold for ["N"], [false] included; in the three revisions. *)
Theorem sub_rule_true_enables IS_DEV N M :
  truthy IS_DEV = true → M ≠ "" →
  (∀ this (w : world V130.statics),
     instance_view w this = Some (VStr N, VBool true) →
     V130.Logger_rules (statics w) !! (N +:+ "." +:+ M) = Some (VBool true) →
     V130.isActivated IS_DEV this (VStr M) w = (Return true, w)) ∧
  (∀ this (w : world V120.statics),
     instance_view w this = Some (VStr N, VBool true) →
     V120._rules (statics w) !! (N +:+ "." +:+ M) = Some (VBool true) →
     V120.isActivated IS_DEV this (VStr M) w = (Return true, w)) ∧
  (∀ this (w : world V110.statics),
     instance_view w this = Some (VStr N, VBool true) →
     V110.Logger_options (statics w) !! (N +:+ "." +:+ M) = Some (VBool true) →
     V110.isActivated IS_DEV this (VStr M) w = (Return true, w)).
Proof.
  intros Hdev HM. repeat split; intros this w Hinst Hsub.
  - rewrite V130_isActivated_run, Hinst.
    by rewrite (activation_rules_first_sub _ _ _ _ true Hdev HM Hsub).
  - rewrite V120_isActivated_run, Hinst.
    by rewrite (activation_debug_first_sub _ _ _ _ true Hdev HM Hsub).
  - rewrite V110_isActivated_run, Hinst.
    by rewrite (activation_debug_first_sub _ _ _ _ true Hdev HM Hsub).
Qed.

(** C8.  [isActivated] is a function of the development flag, the rules,
    the instance's name and [debug], and the method argument: a call
    returns the world it was given, and two calls whose worlds agree on
    the rules and whose instances agree on [(name, debug)] have the same
    outcome, whatever else differs (other options, other instances, the
    console).  Revisions 1.3.0 and 1.1.0. *)
Theorem isActivated_pure IS_DEV (method : value) :
  (∀ this (w : world V130.statics),
     snd (V130.isActivated IS_DEV this method w) = w) ∧
  (∀ this1 this2 (w1 w2 : world V130.statics),
     V130.Logger_rules (statics w1) = V130.Logger_rules (statics w2) →
     instance_view w1 this1 = instance_view w2 this2 →
     fst (V130.isActivated IS_DEV this1 method w1)
     = fst (V130.isActivated IS_DEV this2 method w2)) ∧
  (∀ this (w : world V110.statics),
     snd (V110.isActivated IS_DEV this method w) = w) ∧
  (∀ this1 this2 (w1 w2 : world V110.statics),
     V110.Logger_options (statics w1) = V110.Logger_options (statics w2) →
     instance_view w1 this1 = instance_view w2 this2 →
     fst (V110.isActivated IS_DEV this1 method w1)
     = fst (V110.isActivated IS_DEV this2 method w2)).
Proof.
  repeat split.
  - intros. by rewrite V130_isActivated_run.
  - intros ???? HR Hv. rewrite !V130_isActivated_run. simpl. by rewrite HR, Hv.
  - intros. by rewrite V110_isActivated_run.
  - intros ???? HR Hv. rewrite !V110_isActivated_run. simpl. by rewrite HR, Hv.
Qed.

End Activation_rules.

Section Activation_examples.
#[local] Existing Instance example_host.

Lemma isActivated_false_outside_dev_mode_witness :
  truthy (VBool false) = false ∧
  V130.isActivated (VBool false) 0 (VStr "error") (world_130 rules_error_on)
  = (Return false, world_130 rules_error_on) ∧
  V110.isActivated (VBool false) 0 (VStr "error") (world_110 rules_error_on)
  = (Return false, world_110 rules_error_on).
Proof.
  split; [reflexivity|].
  destruct (@isActivated_false_outside_dev_mode example_host (VBool false)
              eq_refl) as (H130 & _ & H110).
  split; [apply H130 | apply H110].
Defined.

Lemma sub_rule_true_enables_witness :
  V130.isActivated (VBool true) 0 (VStr "error") (world_130 rules_error_on)
  = (Return true, world_130 rules_error_on) ∧
  V120.isActivated (VBool true) 0 (VStr "error") (world_120 rules_error_on)
  = (Return true, world_120 rules_error_on) ∧
  V110.isActivated (VBool true) 0 (VStr "error") (world_110 rules_error_on)
  = (Return true, world_110 rules_error_on).
Proof.
  destruct (@sub_rule_true_enables example_host (VBool true) "request" "error"
              eq_refl ltac:(discriminate)) as (H130 & H120 & H110).
  split; [|split].
  - apply H130; vm_compute; reflexivity.
  - apply H120; vm_compute; reflexivity.
  - apply H110; vm_compute; reflexivity.
Defined.

Lemma isActivated_pure_witness :
  fst (V130.isActivated (VBool true) 0 (VStr "error") (world_130 rules_error_off))
  = fst (V130.isActivated (VBool true) 1 (VStr "error")
           (World (V130.Statics rules_error_off ∅ None None)
                  [∅; <["extra" := VNull]> request_options]
                  [Call "log" [VStr "earlier"]])).
Proof.
  apply (@isActivated_pure example_host (VBool true) (VStr "error"));
    vm_compute; reflexivity.
Defined.

End Activation_examples.

Section Forwarding.
Context `{Host}.
Implicit Types (IS_DEV : value) (this self : ref) (args : list value).

(** The textual conversion of the arguments of [error] reads nothing and
    writes nothing. *)
Lemma map_M_toString_run {S} args (w : world S) :
  map_M (λ value, or_TypeError (toString value)) args w
  = (match mapM toString args with
     | Some strings => Return strings
     | None => Throw TypeError
     end, w).
Proof.
  induction args as [|a args IH]; [done|].
  simpl. unfold bind at 1. unfold or_TypeError at 1.
  destruct (toString a) as [s|]; simpl; [|done].
  unfold bind. rewrite IH. by destruct (mapM toString args).
Qed.

Lemma V130_error_run this args (w : world V130.statics) :
  V130.error this args w
  = (match mapM toString args with
     | Some strings => Throw (Error (String.concat " " strings))
     | None => Throw TypeError
     end, w).
Proof.
  unfold V130.error, bind. rewrite map_M_toString_run.
  by destruct (mapM toString args).
Qed.

Lemma V110_error_run this args (w : world V110.statics) :
  V110.error this args w
  = (match mapM toString args with
     | Some strings => Throw (Error (String.concat " " strings))
     | None => Throw TypeError
     end, w).
Proof.
  unfold V110.error, bind. rewrite map_M_toString_run.
  by destruct (mapM toString args).
Qed.

(** A method whose activation check answers [false] forwards nothing. *)
Lemma V130_logProxyRun_inactive IS_DEV self method color args w :
  V130.isActivated IS_DEV self (VStr method) w = (Return false, w) →
  V130.logProxyRun IS_DEV self method color args w = (Return self, w).
Proof. intros Hact. unfold V130.logProxyRun, bind. by rewrite Hact. Qed.

Lemma V130_proxyRun_inactive IS_DEV self method args w :
  V130.isActivated IS_DEV self (VStr method) w = (Return false, w) →
  V130.proxyRun IS_DEV self method args w = (Return self, w).
Proof. intros Hact. unfold V130.proxyRun, bind. by rewrite Hact. Qed.

Lemma V110_factory_inactive IS_DEV self method color args w :
  V110.isActivated IS_DEV self (VStr method) w = (Return false, w) →
  V110.factory IS_DEV self method color args w = (Return self, w).
Proof. intros Hact. unfold V110.factory, bind. by rewrite Hact. Qed.

Lemma V110_proxyRun_inactive IS_DEV self method args w :
  V110.isActivated IS_DEV self (VStr method) w = (Return false, w) →
  V110.proxyRun IS_DEV self method args w = (Return self, w).
Proof. intros Hact. unfold V110.proxyRun, bind. by rewrite Hact. Qed.

(** The guard of [table] holds of no value. *)
Lemma isArray_and_isPlainObject (data : value) :
  validation.isArray data && validation.isPlainObject data = false.
Proof. by destruct data. Qed.

(** Every method but the aliases [info] and [debug] checks activation
    under its own name, and forwards nothing when the check fails;
    [error] checks nothing and forwards nothing. *)
Lemma V130_invoke_inactive IS_DEV m this args w :
  m ≠ m_info → m ≠ m_debug →
  V130.isActivated IS_DEV this (VStr (method_name m)) w = (Return false, w) →
  snd (V130.invoke IS_DEV m this args w) = w.
Proof.
  intros Hinfo Hdebug Hact.
  destruct m; try done; simpl in Hact; simpl;
    try (unfold V130.log, V130.warn, V130.trace;
         by rewrite V130_logProxyRun_inactive);
    try by rewrite V130_error_run.
  all: unfold V130.table, V130.dir, V130.dirxml, V130.group,
         V130.groupCollapsed, V130.groupEnd, V130.count, V130.time,
         V130.timeEnd, V130.timeStamp, V130.profile, V130.profileEnd,
         V130.assert, V130.clear;
       rewrite ?isArray_and_isPlainObject;
       by rewrite V130_proxyRun_inactive.
Qed.

Lemma V110_invoke_inactive IS_DEV m this args w :
  m ≠ m_info → m ≠ m_debug →
  V110.isActivated IS_DEV this (VStr (method_name m)) w = (Return false, w) →
  snd (V110.invoke IS_DEV m this args w) = w.
Proof.
  intros Hinfo Hdebug Hact.
  destruct m; try done; simpl in Hact; simpl;
    try (unfold V110.log, V110.warn, V110.trace;
         by rewrite V110_factory_inactive);
    try by rewrite V110_error_run.
  all: unfold V110.table, V110.dir, V110.dirxml, V110.group,
         V110.groupCollapsed, V110.groupEnd, V110.count, V110.time,
         V110.timeEnd, V110.timeStamp, V110.profile, V110.profileEnd,
         V110.assert, V110.clear;
       rewrite ?isArray_and_isPlainObject;
       by rewrite V110_proxyRun_inactive.
Qed.

(** The output methods write to the console only: the static state
    and the instances are as before. *)
Lemma V130_invoke_frame IS_DEV m this args (w : world V130.statics) :
  statics (snd (V130.invoke IS_DEV m this args w)) = statics w ∧
  heap (snd (V130.invoke IS_DEV m this args w)) = heap w.
Proof.
  destruct m; simpl;
    unfold V130.info, V130.debug, V130.log, V130.warn, V130.trace,
      V130.table, V130.dir, V130.dirxml, V130.group,
      V130.groupCollapsed, V130.groupEnd, V130.count, V130.time,
      V130.timeEnd, V130.timeStamp, V130.profile, V130.profileEnd,
      V130.assert, V130.clear;
    rewrite ?isArray_and_isPlainObject, ?V130_error_run; try done;
    unfold V130.logProxyRun, V130.proxyRun, V130.get_name, bind;
    rewrite V130_isActivated_run;
    destruct (activation_rules_first _ _ _ _) as [[]|]; try done;
    unfold_monad; step_all.
Qed.

(** An instance that exists, seen through its name and [debug]. *)
Lemma view_name_run {S} (w : world S) self N d :
  instance_view w self = Some (VStr N, d) →
  ∃ o, heap w !! self = Some o ∧ get o "name" = VStr N ∧ get o "debug" = d.
Proof.
  unfold instance_view. destruct (heap w !! self) as [o|]; [|done].
  intros [= Hn Hd]. eauto.
Qed.

(** The call a log-style method adds when its check passes. *)
Lemma V130_logProxyRun_active IS_DEV self (method : string) color args w N d :
  V130.isActivated IS_DEV self (VStr method) w = (Return true, w) →
  instance_view w self = Some (VStr N, d) →
  V130.logProxyRun IS_DEV self method color args w
  = (Return self,
     World (statics w) (heap w)
       (console w ++
        [Call method
           (VStr ("%c[" +:+ N +:+ "]:%c") :: VStr ("color: " +:+ color)
            :: VStr ""
            :: map (λ arg, if validation.isElement arg then VArr [arg] else arg)
                 args)])).
Proof.
  intros Hact (o & Ho & Hn & _)%view_name_run.
  unfold V130.logProxyRun, bind. rewrite Hact. simpl.
  unfold V130.get_name, bind, read_options. rewrite Ho. simpl.
  by rewrite Hn.
Qed.

Lemma V110_factory_active IS_DEV self (method : string) color args w N d :
  V110.isActivated IS_DEV self (VStr method) w = (Return true, w) →
  instance_view w self = Some (VStr N, d) →
  V110.factory IS_DEV self method color args w
  = (Return self,
     World (statics w) (heap w)
       (console w ++
        [Call method
           (VStr ("%c[" +:+ N +:+ "]:%c") :: VStr ("color: " +:+ color)
            :: VStr ""
            :: map (λ arg, if validation.isElement arg then VArr [arg] else arg)
                 args)])).
Proof.
  intros Hact (o & Ho & Hn & _)%view_name_run.
  unfold V110.factory, bind. rewrite Hact. simpl.
  unfold V110.get_name, bind, read_options. rewrite Ho. simpl.
  by rewrite Hn.
Qed.

(** C2, amended.  With development mode on, for an instance named [N]
    whose [debug] is [true] and a method name [M] (a non-empty string),
    the entry ["N.M" = false] makes [isActivated(M)] answer [false]
    whatever the rules hold for ["N"], and every method called [M] that
    checks activation under its own name then leaves the world, the
    console included, as it was.  The aliases [info] and [debug] are
    [log]: a call of either is the same call of [log], so it is gated
    by ["N.log"] (with ["N.log" = false] it leaves the world as it
    was) and not by ["N.info"] or ["N.debug"] (when the check for
    ["log"] passes it adds the [log] call, whatever [M] is).
    Revisions 1.3.0 and 1.1.0. *)
Theorem sub_rule_false_disables IS_DEV (N M : string) :
  truthy IS_DEV = true → M ≠ "" →
  (∀ this (w : world V130.statics),
     instance_view w this = Some (VStr N, VBool true) →
     V130.Logger_rules (statics w) !! (N +:+ "." +:+ M) = Some (VBool false) →
     V130.isActivated IS_DEV this (VStr M) w = (Return false, w) ∧
     (∀ m args, method_name m = M → m ≠ m_info → m ≠ m_debug →
        snd (V130.invoke IS_DEV m this args w) = w) ∧
     (∀ m args, m = m_info ∨ m = m_debug →
        V130.invoke IS_DEV m this args w
        = V130.invoke IS_DEV m_log this args w ∧
        (V130.Logger_rules (statics w) !! (N +:+ "." +:+ "log")
         = Some (VBool false) →
         V130.invoke IS_DEV m this args w = (Return this, w)) ∧
        (V130.isActivated IS_DEV this (VStr "log") w = (Return true, w) →
         V130.invoke IS_DEV m this args w
         = (Return this,
            World (statics w) (heap w)
              (console w ++
               [Call "log"
                  (VStr ("%c[" +:+ N +:+ "]:%c")
                   :: VStr "color: lightseagreen" :: VStr ""
                   :: map (λ arg, if validation.isElement arg
                                  then VArr [arg] else arg) args)]))))) ∧
  (∀ this (w : world V110.statics),
     instance_view w this = Some (VStr N, VBool true) →
     V110.Logger_options (statics w) !! (N +:+ "." +:+ M) = Some (VBool false) →
     V110.isActivated IS_DEV this (VStr M) w = (Return false, w) ∧
     (∀ m args, method_name m = M → m ≠ m_info → m ≠ m_debug →
        snd (V110.invoke IS_DEV m this args w) = w) ∧
     (∀ m args, m = m_info ∨ m = m_debug →
        V110.invoke IS_DEV m this args w
        = V110.invoke IS_DEV m_log this args w ∧
        (V110.Logger_options (statics w) !! (N +:+ "." +:+ "log")
         = Some (VBool false) →
         V110.invoke IS_DEV m this args w = (Return this, w)) ∧
        (V110.isActivated IS_DEV this (VStr "log") w = (Return true, w) →
         V110.invoke IS_DEV m this args w
         = (Return this,
            World (statics w) (heap w)
              (console w ++
               [Call "log"
                  (VStr ("%c[" +:+ N +:+ "]:%c")
                   :: VStr "color: lightseagreen" :: VStr ""
                   :: map (λ arg, if validation.isElement arg
                                  then VArr [arg] else arg) args)]))))).
Proof.
  intros Hdev HM. split; intros this w Hinst Hsub.
  - assert (V130.isActivated IS_DEV this (VStr M) w = (Return false, w))
      as Hact.
    { rewrite V130_isActivated_run, Hinst.
      by rewrite (activation_rules_first_sub _ _ _ _ false Hdev HM Hsub). }
    split; [done|]. split.
    { intros m args <- Hinfo Hdebug. by apply V130_invoke_inactive. }
    intros m args Halias.
    assert (V130.invoke IS_DEV m this args w
            = V130.logProxyRun IS_DEV this "log" "lightseagreen" args w)
      as Hlog by (by destruct Halias as [-> | ->]).
    split; [by rewrite Hlog|]. split.
    + intros Hrule. rewrite Hlog. apply V130_logProxyRun_inactive.
      rewrite V130_isActivated_run, Hinst.
      by rewrite (activation_rules_first_sub _ _ N "log" false Hdev).
    + intros Hon. rewrite Hlog.
      by apply (V130_logProxyRun_active _ _ _ _ _ _ _ (VBool true)).
  - assert (V110.isActivated IS_DEV this (VStr M) w = (Return false, w))
      as Hact.
    { rewrite V110_isActivated_run, Hinst.
      by rewrite (activation_debug_first_sub _ _ _ _ false Hdev HM Hsub). }
    split; [done|]. split.
    { intros m args <- Hinfo Hdebug. by apply V110_invoke_inactive. }
    intros m args Halias.
    assert (V110.invoke IS_DEV m this args w
            = V110.factory IS_DEV this "log" "lightseagreen" args w)
      as Hlog by (by destruct Halias as [-> | ->]).
    split; [by rewrite Hlog|]. split.
    + intros Hrule. rewrite Hlog. apply V110_factory_inactive.
      rewrite V110_isActivated_run, Hinst.
      by rewrite (activation_debug_first_sub _ _ N "log" false Hdev).
    + intros Hon. rewrite Hlog.
      by apply (V110_factory_active _ _ _ _ _ _ _ (VBool true)).
Qed.

End Forwarding.

Section Error_and_table.
Context `{Host}.
Implicit Types (IS_DEV : value) (this : ref) (args : list value).

(** C4, amended.  [error] never returns: in every world (so whatever the
    rules, the instance's [debug] and the development flag, which it
    does not read) it throws and leaves the world as it was.  When every
    argument has a text ([toString] succeeds on each), what it throws
    is an [Error] whose message is these texts joined by one space;
    [error("a", "b")] throws [Error "a b"].  Revisions 1.3.0 and 1.1.0. *)
Theorem error_always_throws this args :
  (∀ w : world V130.statics,
     (∃ e, V130.error this args w = (Throw e, w)) ∧
     (∀ strings, mapM toString args = Some strings →
        V130.error this args w
        = (Throw (Error (String.concat " " strings)), w)) ∧
     V130.error this [VStr "a"; VStr "b"] w = (Throw (Error "a b"), w)) ∧
  (∀ w : world V110.statics,
     (∃ e, V110.error this args w = (Throw e, w)) ∧
     (∀ strings, mapM toString args = Some strings →
        V110.error this args w
        = (Throw (Error (String.concat " " strings)), w)) ∧
     V110.error this [VStr "a"; VStr "b"] w = (Throw (Error "a b"), w)).
Proof.
  split; intros w.
  - split; [|split].
    + rewrite V130_error_run. destruct (mapM toString args); eauto.
    + intros strings Hs. by rewrite V130_error_run, Hs.
    + by rewrite V130_error_run.
  - split; [|split].
    + rewrite V110_error_run. destruct (mapM toString args); eauto.
    + intros strings Hs. by rewrite V110_error_run, Hs.
    + by rewrite V110_error_run.
Qed.

Lemma toString_null_undefined (v : value) :
  v = VNull ∨ v = VUndefined → toString v = None.
Proof. by intros [-> | ->]. Qed.

(** C10.  [error] throws the [Error] with the joined message exactly
    when every argument has a text; an argument that is [null] or
    [undefined] has none, and the call then throws a [TypeError] while
    converting, before any [Error] is built.  Revisions 1.3.0 and
    1.1.0. *)
Theorem error_message_needs_convertible_arguments this args :
  (∀ w : world V130.statics,
     ((∃ message, fst (V130.error this args w) = Throw (Error message))
      ↔ Forall (λ v, is_Some (toString v)) args) ∧
     (VNull ∈ args ∨ VUndefined ∈ args →
      V130.error this args w = (Throw TypeError, w))) ∧
  (∀ w : world V110.statics,
     ((∃ message, fst (V110.error this args w) = Throw (Error message))
      ↔ Forall (λ v, is_Some (toString v)) args) ∧
     (VNull ∈ args ∨ VUndefined ∈ args →
      V110.error this args w = (Throw TypeError, w))).
Proof.
  assert (∀ a : list value, VNull ∈ a ∨ VUndefined ∈ a → mapM toString a = None)
    as Hnone.
  { intros a Hin. apply mapM_None, Exists_exists.
    destruct Hin as [Hin | Hin]; eexists; (split; [exact Hin | done]). }
  split; intros w.
  - rewrite V130_error_run. split.
    + rewrite <- (mapM_is_Some toString args).
      destruct (mapM toString args) as [strings|]; simpl.
      * split; [by eauto | by eexists].
      * split; [by intros [? ?] | by intros [? ?]].
    + intros Hin. by rewrite (Hnone _ Hin).
  - rewrite V110_error_run. split.
    + rewrite <- (mapM_is_Some toString args).
      destruct (mapM toString args) as [strings|]; simpl.
      * split; [by eauto | by eexists].
      * split; [by intros [? ?] | by intros [? ?]].
    + intros Hin. by rewrite (Hnone _ Hin).
Qed.

(** C7.  [table] takes the [proxyRun] branch for every datum, arrays
    included: it is [proxyRun(this, 'table', data)].  So when the
    activation check for ["table"] passes, the console receives exactly
    the call [table(data)], and when it fails nothing is forwarded;
    [log] is never called.  Revisions 1.3.0 and 1.1.0. *)
Theorem table_always_proxies IS_DEV this (data : value) :
  (∀ w : world V130.statics,
     V130.table IS_DEV this data w
     = V130.proxyRun IS_DEV this "table" [data] w ∧
     (V130.isActivated IS_DEV this (VStr "table") w = (Return true, w) →
      V130.table IS_DEV this data w
      = (Return this,
         World (statics w) (heap w) (console w ++ [Call "table" [data]]))) ∧
     (V130.isActivated IS_DEV this (VStr "table") w = (Return false, w) →
      V130.table IS_DEV this data w = (Return this, w))) ∧
  (∀ w : world V110.statics,
     V110.table IS_DEV this data w
     = V110.proxyRun IS_DEV this "table" [data] w ∧
     (V110.isActivated IS_DEV this (VStr "table") w = (Return true, w) →
      V110.table IS_DEV this data w
      = (Return this,
         World (statics w) (heap w) (console w ++ [Call "table" [data]]))) ∧
     (V110.isActivated IS_DEV this (VStr "table") w = (Return false, w) →
      V110.table IS_DEV this data w = (Return this, w))).
Proof.
  split; intros w.
  - unfold V130.table. rewrite isArray_and_isPlainObject.
    split; [done|]. split; intros Hact.
    + unfold V130.proxyRun, bind. by rewrite Hact.
    + by apply V130_proxyRun_inactive.
  - unfold V110.table. rewrite isArray_and_isPlainObject.
    split; [done|]. split; intros Hact.
    + unfold V110.proxyRun, bind. by rewrite Hact.
    + by apply V110_proxyRun_inactive.
Qed.

End Error_and_table.

Section Configuration.
Context `{Host}.
Implicit Types (LOGGER_RULES rules options : obj) (k : string) (v : value).

Lemma spread_lookup_src (acc src : obj) k v :
  src !! k = Some v → spread acc src !! k = Some v.
Proof. intros Hk. unfold spread. by apply lookup_union_Some_l. Qed.

Lemma spread_lookup_acc (acc src : obj) k :
  src !! k = None → spread acc src !! k = acc !! k.
Proof. intros Hk. unfold spread. by apply lookup_union_r. Qed.

(** What the two static operations of a revision store. *)
Lemma V120_configRules_run LOGGER_RULES rules (w : world V120.statics) :
  V120.configRules LOGGER_RULES rules w
  = (Return tt,
     World (V120.Statics
              (spread (spread (spread ∅ (V120._rules (statics w))) rules)
                      LOGGER_RULES)
              (V120._options (statics w)))
           (heap w) (console w)).
Proof. done. Qed.

Lemma V130_configRules_run LOGGER_RULES rules (w : world V130.statics) :
  V130.configRules LOGGER_RULES rules w
  = (Return tt,
     World (V130.Statics
              (V130.Logger_rules (statics w))
              (V130.Logger_options (statics w))
              (Some (spread (spread (spread ∅
                                       (default ∅ (V130.self_rules (statics w))))
                                    rules)
                            LOGGER_RULES))
              (V130.self_options (statics w)))
           (heap w) (console w)).
Proof. done. Qed.

Lemma V130_config_run options (w : world V130.statics) :
  V130.config options w
  = (Return tt,
     World (V130.Statics
              (V130.Logger_rules (statics w))
              (V130.Logger_options (statics w))
              (V130.self_rules (statics w))
              (Some (spread (spread ∅ (default ∅ (V130.self_options (statics w))))
                            options)))
           (heap w) (console w)).
Proof. done. Qed.

Lemma V110_config_run options (w : world V110.statics) :
  V110.config (Some options) w
  = (Return tt,
     World (V110.Statics
              (spread (spread ∅ options) (V110.Logger_options (statics w))))
           (heap w) (console w)).
Proof. done. Qed.

(** In 1.3.0 the class fields [Logger.rules] and [Logger.options] keep
    their initial values: the two static operations assign properties of
    [self], and no other operation writes static state. *)
Lemma V130_class_fields_frozen LOGGER_RULES rules options
    (w : world V130.statics) :
  let w1 := snd (V130.configRules LOGGER_RULES rules w) in
  let w2 := snd (V130.config options w) in
  V130.Logger_rules (statics w1) = V130.Logger_rules (statics w) ∧
  V130.Logger_options (statics w1) = V130.Logger_options (statics w) ∧
  V130.Logger_rules (statics w2) = V130.Logger_rules (statics w) ∧
  V130.Logger_options (statics w2) = V130.Logger_options (statics w).
Proof. done. Qed.

(** C5, amended.  Without an entry for the key in the environment's
    mapping, [configRules] of 1.2.0 is last-write-wins: after
    [configRules(r1)] and then [configRules(r2)] the key resolves to what
    [r2] gives it.  The [config] of 1.1.0 spreads the stored entries
    last, so it is first-write-wins: a key absent from the stored rules
    and set by [config(r1)] keeps that value after [config(r2)]. *)
Theorem configRules_last_write_config_first_write k v :
  (∀ LOGGER_RULES r1 r2 (w : world V120.statics),
     LOGGER_RULES !! k = None → r2 !! k = Some v →
     V120._rules
       (statics (snd (V120.configRules LOGGER_RULES r2
                        (snd (V120.configRules LOGGER_RULES r1 w)))))
       !! k = Some v) ∧
  (∀ r1 r2 (w : world V110.statics),
     V110.Logger_options (statics w) !! k = None → r1 !! k = Some v →
     V110.Logger_options
       (statics (snd (V110.config (Some r2) (snd (V110.config (Some r1) w)))))
       !! k = Some v).
Proof.
  split.
  - intros LOGGER_RULES r1 r2 w Henv Hr2.
    rewrite !V120_configRules_run. simpl.
    rewrite (spread_lookup_acc _ _ _ Henv). by apply spread_lookup_src.
  - intros r1 r2 w Hstored Hr1.
    rewrite !V110_config_run. simpl.
    apply spread_lookup_src. rewrite (spread_lookup_acc _ _ _ Hstored).
    by apply spread_lookup_src.
Qed.

(** C6.  An entry of the environment's mapping [LOGGER_RULES] wins over
    the argument of [configRules]: after any call the stored rules give
    the key the environment's value.  In 1.2.0 this is the module
    variable [_rules]; in 1.3.0 it is the class field [Logger.rules],
    which holds [LOGGER_RULES] itself, and the mapping the call assigns
    to [self.rules] has the entry too. *)
Theorem LOGGER_RULES_entry_wins LOGGER_RULES k v :
  LOGGER_RULES !! k = Some v →
  (∀ rules (w : world V120.statics),
     V120._rules (statics (snd (V120.configRules LOGGER_RULES rules w))) !! k
     = Some v) ∧
  (∀ rules (w : world V130.statics),
     V130.Logger_rules (statics w) = LOGGER_RULES →
     V130.Logger_rules
       (statics (snd (V130.configRules LOGGER_RULES rules w))) !! k
     = Some v ∧
     ∃ assigned,
       V130.self_rules (statics (snd (V130.configRules LOGGER_RULES rules w)))
       = Some assigned ∧ assigned !! k = Some v).
Proof.
  intros Henv. split.
  - intros rules w. rewrite V120_configRules_run. simpl.
    by apply spread_lookup_src.
  - intros rules w Hfield. rewrite V130_configRules_run. simpl.
    split; [by rewrite Hfield|].
    eexists. split; [done|]. by apply spread_lookup_src.
Qed.

(** C9, on 1.3.0.  [config] leaves [Logger.options] as it was, so an
    instance constructed afterwards from a namespace string takes its
    [debug] from the unchanged record: after [config(options)] in the
    initial world, for any [options] and [{debug: false}] in particular,
    [new Logger(ns)] has name [ns] and [debug] still [true]. *)
Theorem V130_config_does_not_reach_constructor LOGGER_RULES options
    (ns : string) :
  let w0 := V130.init LOGGER_RULES in
  let w1 := snd (V130.config options w0) in
  let w1' := snd (V130.config (<["debug" := VBool false]> ∅) w0) in
  V130.Logger_options (statics w1) = V130.Logger_options (statics w0) ∧
  (∃ this w2,
     V130.constructor (Namespace ns) w1 = (Return this, w2) ∧
     instance_view w2 this = Some (VStr ns, VBool true)) ∧
  (∃ this w2,
     V130.constructor (Namespace ns) w1' = (Return this, w2) ∧
     instance_view w2 this = Some (VStr ns, VBool true)).
Proof.
  simpl. split; [done|].
  split; (eexists _, _; split; [reflexivity|]; vm_compute; reflexivity).
Qed.

(** The same calls in 1.2.0, where [config] assigns the module variable
    the constructor reads: the instance has [debug = false]. *)
Lemma V120_config_reaches_constructor (ns : string) :
  let w1 := snd (V120.config (<["debug" := VBool false]> ∅) V120.init) in
  ∃ this w2,
    V120.constructor (Namespace ns) w1 = (Return this, w2) ∧
    instance_view w2 this = Some (VStr ns, VBool false).
Proof.
  simpl. eexists _, _. split; [reflexivity|].
  vm_compute. reflexivity.
Qed.

End Configuration.

(** * Worked examples *)

Section Worked_examples.
#[local] Existing Instance example_host.

(** C2 as stated fails for the aliases: with ["request.info" = false]
    (and ["request" = true], [debug] true, development mode on)
    [isActivated("info")] answers [false], yet [info("x")] reaches
    [console.log], in 1.3.0 and in 1.1.0. *)
Lemma info_forwards_despite_its_rule :
  V130.Logger_rules (statics (world_130 rules_info_off)) !! "request.info"
  = Some (VBool false) ∧
  instance_view (world_130 rules_info_off) 0 = Some (VStr "request", VBool true) ∧
  V130.isActivated (VBool true) 0 (VStr "info") (world_130 rules_info_off)
  = (Return false, world_130 rules_info_off) ∧
  console (snd (V130.invoke (VBool true) m_info 0 [VStr "x"]
                  (world_130 rules_info_off)))
  = [Call "log" [VStr "%c[request]:%c"; VStr "color: lightseagreen";
                 VStr ""; VStr "x"]] ∧
  V110.isActivated (VBool true) 0 (VStr "info") (world_110 rules_info_off)
  = (Return false, world_110 rules_info_off) ∧
  console (snd (V110.invoke (VBool true) m_info 0 [VStr "x"]
                  (world_110 rules_info_off)))
  = [Call "log" [VStr "%c[request]:%c"; VStr "color: lightseagreen";
                 VStr ""; VStr "x"]].
Proof. repeat (split; [vm_compute; reflexivity|]). vm_compute; reflexivity. Qed.

Lemma sub_rule_false_disables_witness :
  V130.isActivated (VBool true) 0 (VStr "warn") (world_130 rules_warn_off)
  = (Return false, world_130 rules_warn_off) ∧
  snd (V130.invoke (VBool true) m_warn 0 [VStr "x"] (world_130 rules_warn_off))
  = world_130 rules_warn_off ∧
  V130.invoke (VBool true) m_info 0 [VStr "x"] (world_130 rules_log_off)
  = (Return 0, world_130 rules_log_off) ∧
  V110.invoke (VBool true) m_debug 0 [VStr "x"] (world_110 rules_log_off)
  = (Return 0, world_110 rules_log_off).
Proof.
  destruct (@sub_rule_false_disables example_host (VBool true) "request" "warn"
              eq_refl ltac:(discriminate)) as [H130 _].
  destruct (H130 0 (world_130 rules_warn_off)) as (Hact & Hquiet & _);
    [vm_compute; reflexivity | vm_compute; reflexivity |].
  split; [exact Hact|]. split.
  { apply Hquiet; [reflexivity | discriminate | discriminate]. }
  destruct (@sub_rule_false_disables example_host (VBool true) "request" "log"
              eq_refl ltac:(discriminate)) as [Hlog130 Hlog110].
  split.
  - destruct (Hlog130 0 (world_130 rules_log_off)) as (_ & _ & Halias);
      [vm_compute; reflexivity | vm_compute; reflexivity |].
    apply (Halias m_info [VStr "x"]); [by left | vm_compute; reflexivity].
  - destruct (Hlog110 0 (world_110 rules_log_off)) as (_ & _ & Halias);
      [vm_compute; reflexivity | vm_compute; reflexivity |].
    apply (Halias m_debug [VStr "x"]); [by right | vm_compute; reflexivity].
Defined.

(** C4 as stated fails on an argument without a text: [error(null)]
    throws a [TypeError], not an [Error] with a message. *)
Lemma error_null_is_a_TypeError :
  V130.error 0 [VNull] (world_130 ∅) = (Throw TypeError, world_130 ∅) ∧
  V110.error 0 [VNull] (world_110 ∅) = (Throw TypeError, world_110 ∅) ∧
  ¬ ∃ message, fst (V130.error 0 [VNull] (world_130 ∅)) = Throw (Error message).
Proof.
  split; [reflexivity|]. split; [reflexivity|].
  intros [message Hm]. vm_compute in Hm. discriminate Hm.
Qed.

Lemma error_always_throws_witness :
  mapM toString [VStr "a"; VNum 1%Z; VBool true] = Some ["a"; "1"; "true"] ∧
  V130.error 0 [VStr "a"; VNum 1%Z; VBool true] (world_130 ∅)
  = (Throw (Error "a 1 true"), world_130 ∅).
Proof.
  split; [reflexivity|].
  exact (proj1 (proj2 (proj1 (@error_always_throws example_host 0
                                [VStr "a"; VNum 1%Z; VBool true])
                         (world_130 ∅)))
           ["a"; "1"; "true"] eq_refl).
Defined.

Lemma error_message_needs_convertible_arguments_witness :
  (VNull ∈ [VStr "a"; VNull] ∨ VUndefined ∈ [VStr "a"; VNull]) ∧
  V130.error 0 [VStr "a"; VNull] (world_130 ∅) = (Throw TypeError, world_130 ∅).
Proof.
  assert (VNull ∈ [VStr "a"; VNull] ∨ VUndefined ∈ [VStr "a"; VNull]) as Hin.
  { left. repeat constructor. }
  split; [exact Hin|].
  exact (proj2 (proj1 (@error_message_needs_convertible_arguments example_host
                         0 [VStr "a"; VNull]) (world_130 ∅)) Hin).
Defined.

Lemma table_always_proxies_witness :
  V130.isActivated (VBool true) 0 (VStr "table") (world_130 ∅)
  = (Return true, world_130 ∅) ∧
  V130.table (VBool true) 0 one_two_three (world_130 ∅)
  = (Return 0,
     World (statics (world_130 ∅)) (heap (world_130 ∅))
           (console (world_130 ∅) ++ [Call "table" [one_two_three]])).
Proof.
  assert (V130.isActivated (VBool true) 0 (VStr "table") (world_130 ∅)
          = (Return true, world_130 ∅)) as Hact by (vm_compute; reflexivity).
  split; [exact Hact|].
  exact (proj1 (proj2 (proj1 (@table_always_proxies example_host (VBool true)
                                0 one_two_three) (world_130 ∅))) Hact).
Defined.

(** C5 as stated fails on the [config] of 1.1.0: with nothing stored
    for ["a"], [config({a: true})] then [config({a: false})] leaves
    ["a"] at [true]. *)
Lemma V110_config_first_write_wins :
  V110.Logger_options
    (statics (snd (V110.config (Some a_false)
                     (snd (V110.config (Some a_true) (V110.init ∅))))))
    !! "a" = Some (VBool true).
Proof. vm_compute. reflexivity. Qed.

Lemma configRules_last_write_config_first_write_witness :
  V120._rules
    (statics (snd (V120.configRules ∅ a_false
                     (snd (V120.configRules ∅ a_true V120.init)))))
    !! "a" = Some (VBool false).
Proof.
  apply (@configRules_last_write_config_first_write example_host "a"
           (VBool false)); vm_compute; reflexivity.
Defined.

Lemma LOGGER_RULES_entry_wins_witness :
  a_true !! "a" = Some (VBool true) ∧
  V120._rules (statics (snd (V120.configRules a_true a_false V120.init))) !! "a"
  = Some (VBool true) ∧
  V130.Logger_rules
    (statics (snd (V130.configRules a_true a_false (V130.init a_true)))) !! "a"
  = Some (VBool true).
Proof.
  assert (a_true !! "a" = Some (VBool true)) as Henv by (vm_compute; reflexivity).
  destruct (@LOGGER_RULES_entry_wins example_host a_true "a" (VBool true) Henv)
    as [H120 H130].
  split; [exact Henv|]. split; [apply H120|].
  apply (H130 a_false (V130.init a_true)). reflexivity.
Defined.

End Worked_examples.

(** * Further properties *)

Ltac unfold_methods :=
  unfold V130.info, V130.debug, V130.log, V130.warn, V130.trace,
    V130.table, V130.dir, V130.dirxml, V130.group, V130.groupCollapsed,
    V130.groupEnd, V130.count, V130.time, V130.timeEnd, V130.timeStamp,
    V130.profile, V130.profileEnd, V130.assert, V130.clear,
    V120.info, V120.debug, V120.log, V120.warn, V120.trace,
    V120.table, V120.dir, V120.dirxml, V120.group, V120.groupCollapsed,
    V120.groupEnd, V120.count, V120.time, V120.timeEnd, V120.timeStamp,
    V120.profile, V120.profileEnd, V120.assert, V120.clear,
    V110.info, V110.debug, V110.log, V110.warn, V110.trace,
    V110.table, V110.dir, V110.dirxml, V110.group, V110.groupCollapsed,
    V110.groupEnd, V110.count, V110.time, V110.timeEnd, V110.timeStamp,
    V110.profile, V110.profileEnd, V110.assert, V110.clear;
  rewrite ?isArray_and_isPlainObject.

Section Output.
Context `{Host}.
Implicit Types (IS_DEV d : value) (this self : ref) (args : list value)
  (N M : string) (m : method).

Lemma V120_logProxyRun_active IS_DEV self (method : string) color args w N d :
  V120.isActivated IS_DEV self (VStr method) w = (Return true, w) →
  instance_view w self = Some (VStr N, d) →
  V120.logProxyRun IS_DEV self method color args w
  = (Return self,
     World (statics w) (heap w)
       (console w ++
        [Call method
           (VStr ("%c[" +:+ N +:+ "]:%c") :: VStr ("color: " +:+ color)
            :: VStr ""
            :: map (λ arg, if validation.isElement arg then VArr [arg] else arg)
                 args)])).
Proof.
  intros Hact (o & Ho & Hn & _)%view_name_run.
  unfold V120.logProxyRun, bind. rewrite Hact. simpl.
  unfold V120.get_name, bind, read_options. rewrite Ho. simpl.
  by rewrite Hn.
Qed.

Lemma V130_proxyRun_active IS_DEV self (method : string) args w :
  V130.isActivated IS_DEV self (VStr method) w = (Return true, w) →
  V130.proxyRun IS_DEV self method args w
  = (Return self, World (statics w) (heap w) (console w ++ [Call method args])).
Proof. intros Hact. unfold V130.proxyRun, bind. by rewrite Hact. Qed.

Lemma V120_proxyRun_active IS_DEV self (method : string) args w :
  V120.isActivated IS_DEV self (VStr method) w = (Return true, w) →
  V120.proxyRun IS_DEV self method args w
  = (Return self, World (statics w) (heap w) (console w ++ [Call method args])).
Proof. intros Hact. unfold V120.proxyRun, bind. by rewrite Hact. Qed.

Lemma V110_proxyRun_active IS_DEV self (method : string) args w :
  V110.isActivated IS_DEV self (VStr method) w = (Return true, w) →
  V110.proxyRun IS_DEV self method args w
  = (Return self, World (statics w) (heap w) (console w ++ [Call method args])).
Proof. intros Hact. unfold V110.proxyRun, bind. by rewrite Hact. Qed.

Lemma V120_logProxyRun_inactive IS_DEV self (method : string) color args w :
  V120.isActivated IS_DEV self (VStr method) w = (Return false, w) →
  V120.logProxyRun IS_DEV self method color args w = (Return self, w).
Proof. intros Hact. unfold V120.logProxyRun, bind. by rewrite Hact. Qed.

Lemma V120_proxyRun_inactive IS_DEV self (method : string) args w :
  V120.isActivated IS_DEV self (VStr method) w = (Return false, w) →
  V120.proxyRun IS_DEV self method args w = (Return self, w).
Proof. intros Hact. unfold V120.proxyRun, bind. by rewrite Hact. Qed.

(** With a string for a name and for a method the check answers. *)
Lemma resolve_string rules N M : ∃ status, resolve rules N (VStr M) = Return status.
Proof. unfold resolve. simpl. destruct M; simpl; eauto. Qed.

Lemma activation_rules_first_answers IS_DEV rules N d M :
  ∃ b, activation_rules_first IS_DEV rules (Some (VStr N, d)) (VStr M) = Return b.
Proof.
  unfold activation_rules_first. simpl.
  destruct (resolve_string rules N M) as [status ->].
  repeat case_match; eauto.
Qed.

Lemma activation_debug_first_answers IS_DEV rules N d M :
  ∃ b, activation_debug_first IS_DEV rules (Some (VStr N, d)) (VStr M) = Return b.
Proof.
  unfold activation_debug_first. simpl.
  destruct (resolve_string rules N M) as [status ->].
  repeat case_match; eauto.
Qed.

Lemma V130_isActivated_answers IS_DEV this M w N d :
  instance_view w this = Some (VStr N, d) →
  ∃ b, V130.isActivated IS_DEV this (VStr M) w = (Return b, w).
Proof.
  intros Hv. rewrite V130_isActivated_run, Hv.
  destruct (activation_rules_first_answers IS_DEV (V130.Logger_rules (statics w)) N d M)
    as [b ->]. eauto.
Qed.

Lemma V120_isActivated_answers IS_DEV this M w N d :
  instance_view w this = Some (VStr N, d) →
  ∃ b, V120.isActivated IS_DEV this (VStr M) w = (Return b, w).
Proof.
  intros Hv. rewrite V120_isActivated_run, Hv.
  destruct (activation_debug_first_answers IS_DEV (V120._rules (statics w)) N d M)
    as [b ->]. eauto.
Qed.

Lemma V110_isActivated_answers IS_DEV this M w N d :
  instance_view w this = Some (VStr N, d) →
  ∃ b, V110.isActivated IS_DEV this (VStr M) w = (Return b, w).
Proof.
  intros Hv. rewrite V110_isActivated_run, Hv.
  destruct (activation_debug_first_answers IS_DEV (V110.Logger_options (statics w)) N d M)
    as [b ->]. eauto.
Qed.


Lemma V120_error_run this args (w : world V120.statics) :
  V120.error this args w
  = (match mapM toString args with
     | Some strings => Throw (Error (String.concat " " strings))
     | None => Throw TypeError
     end, w).
Proof.
  unfold V120.error, bind. rewrite map_M_toString_run.
  by destruct (mapM toString args).
Qed.

(** A method whose check, under the name it checks, answers [false]
    leaves the world alone; so does [error], which checks nothing. *)
Lemma V130_invoke_quiet IS_DEV m this args w :
  V130.isActivated IS_DEV this (VStr (console_target m)) w = (Return false, w) →
  snd (V130.invoke IS_DEV m this args w) = w.
Proof.
  intros Hact. destruct m; simpl in *; unfold_methods;
    rewrite ?V130_error_run; try done;
    first [ by rewrite V130_logProxyRun_inactive
          | by rewrite V130_proxyRun_inactive ].
Qed.

Lemma V120_invoke_quiet IS_DEV m this args w :
  V120.isActivated IS_DEV this (VStr (console_target m)) w = (Return false, w) →
  snd (V120.invoke IS_DEV m this args w) = w.
Proof.
  intros Hact. destruct m; simpl in *; unfold_methods;
    rewrite ?V120_error_run; try done;
    first [ by rewrite V120_logProxyRun_inactive
          | by rewrite V120_proxyRun_inactive ].
Qed.

Lemma V110_invoke_quiet IS_DEV m this args w :
  V110.isActivated IS_DEV this (VStr (console_target m)) w = (Return false, w) →
  snd (V110.invoke IS_DEV m this args w) = w.
Proof.
  intros Hact. destruct m; simpl in *; unfold_methods;
    rewrite ?V110_error_run; try done;
    first [ by rewrite V110_factory_inactive
          | by rewrite V110_proxyRun_inactive ].
Qed.

Lemma activation_rules_first_debug_off IS_DEV rules N d M :
  truthy d = false →
  activation_rules_first IS_DEV rules (Some (VStr N, d)) (VStr M) = Return false.
Proof.
  intros Hd. unfold activation_rules_first. simpl.
  destruct (resolve_string rules N M) as [status ->]. rewrite Hd. simpl.
  by repeat case_match.
Qed.

Lemma activation_debug_first_debug_off IS_DEV rules name d (method : value) :
  truthy d = false →
  activation_debug_first IS_DEV rules (Some (name, d)) method = Return false.
Proof.
  intros Hd. unfold activation_debug_first. rewrite Hd. simpl.
  by repeat case_match.
Qed.

Lemma V130_isActivated_debug_off IS_DEV d this N M (w : world V130.statics) :
  truthy d = false → instance_view w this = Some (VStr N, d) →
  V130.isActivated IS_DEV this (VStr M) w = (Return false, w).
Proof.
  intros Hd Hv. rewrite V130_isActivated_run, Hv.
  by rewrite activation_rules_first_debug_off.
Qed.

Lemma V120_isActivated_debug_off IS_DEV d this name (method : value)
    (w : world V120.statics) :
  truthy d = false → instance_view w this = Some (name, d) →
  V120.isActivated IS_DEV this method w = (Return false, w).
Proof.
  intros Hd Hv. rewrite V120_isActivated_run, Hv.
  by rewrite activation_debug_first_debug_off.
Qed.

Lemma V110_isActivated_debug_off IS_DEV d this name (method : value)
    (w : world V110.statics) :
  truthy d = false → instance_view w this = Some (name, d) →
  V110.isActivated IS_DEV this method w = (Return false, w).
Proof.
  intros Hd Hv. rewrite V110_isActivated_run, Hv.
  by rewrite activation_debug_first_debug_off.
Qed.

(** X6.  An instance whose [debug] is falsy ([false], [0], [null], ...)
    is never activated, whatever the rules say: no entry, not even
    ["N.M" = true], switches it on.  In 1.3.0, where the rules are read
    first, this is for an instance with a string name and a string
    method; in 1.2.0 and 1.1.0 [debug] is tested before anything is
    converted, for any name and any method argument. *)
Theorem debug_off_beats_every_rule IS_DEV d :
  truthy d = false →
  (∀ this N M (w : world V130.statics),
     instance_view w this = Some (VStr N, d) →
     V130.isActivated IS_DEV this (VStr M) w = (Return false, w)) ∧
  (∀ this name (method : value) (w : world V120.statics),
     instance_view w this = Some (name, d) →
     V120.isActivated IS_DEV this method w = (Return false, w)) ∧
  (∀ this name (method : value) (w : world V110.statics),
     instance_view w this = Some (name, d) →
     V110.isActivated IS_DEV this method w = (Return false, w)).
Proof.
  intros Hd. split; [|split]; intros.
  - by eapply V130_isActivated_debug_off.
  - by eapply V120_isActivated_debug_off.
  - by eapply V110_isActivated_debug_off.
Qed.

(** What [enable] and [disable] do to an instance that exists. *)
Lemma write_option_run {S} this key v (w : world S) o :
  heap w !! this = Some o →
  write_option this key v w
  = (Return tt, World (statics w) (<[this := <[key := v]> o]> (heap w)) (console w)).
Proof. intros Ho. unfold write_option. by rewrite Ho. Qed.

Lemma view_after_write {S} this (v : value) (w : world S) o other :
  heap w !! this = Some o →
  instance_view
    (World (statics w) (<[this := <["debug" := v]> o]> (heap w)) (console w)) other
  = if decide (other = this) then Some (get o "name", v)
    else instance_view w other.
Proof.
  intros Ho. unfold instance_view. simpl.
  assert (this < length (heap w)) as Hlt by (by eapply lookup_lt_Some).
  destruct (decide (other = this)) as [->|Hne].
  - rewrite list_lookup_insert_eq by done. unfold get.
    rewrite lookup_insert_eq. by rewrite lookup_insert_ne.
  - by rewrite list_lookup_insert_ne.
Qed.


Lemma disable_run {S} this (w : world S) o :
  heap w !! this = Some o →
  write_option this "debug" (VBool false) w
  = (Return tt,
     World (statics w) (<[this := <["debug" := VBool false]> o]> (heap w))
           (console w)).
Proof. apply write_option_run. Qed.

(** X1.  [disable()] returns the instance, and after it every method of
    the instance leaves the world, the console included, as [disable]
    left it: nothing is forwarded, for any arguments and any rules
    ([error] still throws).  1.3.0 needs the instance's name to be a
    string. *)
Theorem disable_silences_every_method IS_DEV :
  (∀ this N d m args (w : world V130.statics),
     instance_view w this = Some (VStr N, d) →
     fst (V130.disable this w) = Return this ∧
     snd (V130.invoke IS_DEV m this args (snd (V130.disable this w)))
     = snd (V130.disable this w)) ∧
  (∀ this name d m args (w : world V120.statics),
     instance_view w this = Some (name, d) →
     fst (V120.disable this w) = Return this ∧
     snd (V120.invoke IS_DEV m this args (snd (V120.disable this w)))
     = snd (V120.disable this w)) ∧
  (∀ this name d m args (w : world V110.statics),
     instance_view w this = Some (name, d) →
     fst (V110.disable this w) = Return this ∧
     snd (V110.invoke IS_DEV m this args (snd (V110.disable this w)))
     = snd (V110.disable this w)).
Proof.
  split; [|split].
  - intros this N d m args w Hv.
    destruct (view_name_run w this N d Hv) as (o & Ho & Hn & _).
    unfold V130.disable, bind. rewrite (write_option_run _ _ _ _ _ Ho). simpl.
    split; [done|]. apply V130_invoke_quiet.
    apply (V130_isActivated_debug_off _ (VBool false) _ N); [done|].
    rewrite view_after_write by done. rewrite decide_True by done.
    by rewrite Hn.
  - intros this name d m args w Hv.
    assert (∃ o, heap w !! this = Some o) as [o Ho].
    { unfold instance_view in Hv. destruct (heap w !! this); [eauto|done]. }
    unfold V120.disable, bind. rewrite (write_option_run _ _ _ _ _ Ho). simpl.
    split; [done|]. apply V120_invoke_quiet.
    eapply (V120_isActivated_debug_off _ (VBool false)); [done|].
    rewrite view_after_write by done. by rewrite decide_True by done.
  - intros this name d m args w Hv.
    assert (∃ o, heap w !! this = Some o) as [o Ho].
    { unfold instance_view in Hv. destruct (heap w !! this); [eauto|done]. }
    unfold V110.disable, V110.set_debug, bind.
    rewrite (write_option_run _ _ _ _ _ Ho). simpl.
    split; [done|]. apply V110_invoke_quiet.
    eapply (V110_isActivated_debug_off _ (VBool false)); [done|].
    rewrite view_after_write by done. by rewrite decide_True by done.
Qed.

Lemma write_twice_restores {S} this (w : world S) o v v' :
  heap w !! this = Some o → o !! "debug" = Some v →
  <[this := <["debug" := v]> (<["debug" := v']> o)]>
    (<[this := <["debug" := v']> o]> (heap w)) = heap w.
Proof.
  intros Ho Hd. rewrite list_insert_insert_eq, insert_insert_eq.
  rewrite (insert_id o) by done. by apply list_insert_id.
Qed.

(** X2.  On an instance whose own [debug] is [true], [disable()]
    followed by [enable()] returns the instance and gives back exactly
    the world before the two calls. *)
Theorem disable_then_enable_restores :
  (∀ this o (w : world V130.statics),
     heap w !! this = Some o → o !! "debug" = Some (VBool true) →
     V130.enable this (snd (V130.disable this w)) = (Return this, w)) ∧
  (∀ this o (w : world V120.statics),
     heap w !! this = Some o → o !! "debug" = Some (VBool true) →
     V120.enable this (snd (V120.disable this w)) = (Return this, w)) ∧
  (∀ this o (w : world V110.statics),
     heap w !! this = Some o → o !! "debug" = Some (VBool true) →
     V110.enable this (snd (V110.disable this w)) = (Return this, w)).
Proof.
  assert (∀ S this o (w : world S),
            heap w !! this = Some o → o !! "debug" = Some (VBool true) →
            bind (write_option this "debug" (VBool true)) (λ _, ret this)
              (snd (bind (write_option this "debug" (VBool false))
                      (λ _, ret this) w))
            = (Return this, w)) as Hgen.
  { intros S this o w Ho Hd. unfold bind at 2.
    rewrite (write_option_run _ _ _ _ _ Ho). simpl.
    assert (this < length (heap w)) as Hlt by (by eapply lookup_lt_Some).
    unfold bind, write_option. simpl.
    rewrite list_lookup_insert_eq by done. simpl.
    rewrite (write_twice_restores _ _ _ _ _ Ho Hd). by destruct w. }
  split; [|split]; intros this o w Ho Hd; exact (Hgen _ this o w Ho Hd).
Qed.


Lemma world_eta {S} (w : world S) :
  World (statics w) (heap w) (console w ++ []) = w.
Proof. destruct w. simpl. by rewrite app_nil_r. Qed.

(** X8.  When its activation check passes, a log-style method ([log],
    [info], [debug], [warn], [trace]) adds one console call: to [log],
    [warn] or [trace], with the arguments ["%c[<name>]:%c"],
    ["color: <colour>"], [""], then the caller's arguments in order,
    each DOM element replaced by a one-element array holding it.  The
    colour is [goldenrod] for [warn] and [lightseagreen] for the
    others. *)
Theorem log_style_methods_output IS_DEV m color :
  prefix_color m = Some color →
  (∀ this N d args (w : world V130.statics),
     instance_view w this = Some (VStr N, d) →
     V130.isActivated IS_DEV this (VStr (console_target m)) w = (Return true, w) →
     V130.invoke IS_DEV m this args w
     = (Return this,
        World (statics w) (heap w)
          (console w ++
           [Call (console_target m)
              (VStr ("%c[" +:+ N +:+ "]:%c") :: VStr ("color: " +:+ color)
               :: VStr ""
               :: map (λ arg, if validation.isElement arg then VArr [arg] else arg)
                    args)]))) ∧
  (∀ this N d args (w : world V120.statics),
     instance_view w this = Some (VStr N, d) →
     V120.isActivated IS_DEV this (VStr (console_target m)) w = (Return true, w) →
     V120.invoke IS_DEV m this args w
     = (Return this,
        World (statics w) (heap w)
          (console w ++
           [Call (console_target m)
              (VStr ("%c[" +:+ N +:+ "]:%c") :: VStr ("color: " +:+ color)
               :: VStr ""
               :: map (λ arg, if validation.isElement arg then VArr [arg] else arg)
                    args)]))) ∧
  (∀ this N d args (w : world V110.statics),
     instance_view w this = Some (VStr N, d) →
     V110.isActivated IS_DEV this (VStr (console_target m)) w = (Return true, w) →
     V110.invoke IS_DEV m this args w
     = (Return this,
        World (statics w) (heap w)
          (console w ++
           [Call (console_target m)
              (VStr ("%c[" +:+ N +:+ "]:%c") :: VStr ("color: " +:+ color)
               :: VStr ""
               :: map (λ arg, if validation.isElement arg then VArr [arg] else arg)
                    args)]))).
Proof.
  intros Hc. split; [|split]; intros this N d args w Hv Hact.
  - destruct m; simplify_eq/=; unfold_methods;
      by rewrite (V130_logProxyRun_active _ _ _ _ _ _ _ _ Hact Hv).
  - destruct m; simplify_eq/=; unfold_methods;
      by rewrite (V120_logProxyRun_active _ _ _ _ _ _ _ _ Hact Hv).
  - destruct m; simplify_eq/=; unfold_methods;
      by rewrite (V110_factory_active _ _ _ _ _ _ _ _ Hact Hv).
Qed.

(** X10.  When its activation check passes, a pass-through method hands
    the console one call under its own name with the caller's arguments
    exactly (no prefix, and elements are not wrapped) and changes
    nothing else.  In 1.2.0 and 1.1.0 this is every pass-through
    method; in 1.3.0 the ones that take a rest parameter alone ([dir],
    [dirxml], [timeStamp]). *)
Theorem pass_through_methods_forward_unmodified IS_DEV m :
  (∀ this args (w : world V130.statics),
     variadic_130 m = true →
     V130.isActivated IS_DEV this (VStr (method_name m)) w = (Return true, w) →
     snd (V130.invoke IS_DEV m this args w)
     = World (statics w) (heap w) (console w ++ [Call (method_name m) args])) ∧
  (∀ this args (w : world V120.statics),
     pass_through m = true →
     V120.isActivated IS_DEV this (VStr (method_name m)) w = (Return true, w) →
     snd (V120.invoke IS_DEV m this args w)
     = World (statics w) (heap w) (console w ++ [Call (method_name m) args])) ∧
  (∀ this args (w : world V110.statics),
     pass_through m = true →
     V110.isActivated IS_DEV this (VStr (method_name m)) w = (Return true, w) →
     snd (V110.invoke IS_DEV m this args w)
     = World (statics w) (heap w) (console w ++ [Call (method_name m) args])).
Proof.
  split; [|split]; intros this args w Hm Hact.
  - destruct m; simplify_eq/=; unfold_methods;
      by rewrite (V130_proxyRun_active _ _ _ _ _ Hact).
  - destruct m; simplify_eq/=; unfold_methods;
      by rewrite (V120_proxyRun_active _ _ _ _ _ Hact).
  - destruct m; simplify_eq/=; unfold_methods;
      by rewrite (V110_proxyRun_active _ _ _ _ _ Hact).
Qed.

(** X11.  In 1.3.0 a pass-through method that names its parameters
    hands the console, when its activation check passes, exactly as many
    arguments as it has parameters: [group], [groupCollapsed], [count],
    [time] and [profile] forward one, the first argument or [undefined]
    when the caller gave none, and drop the rest; [groupEnd],
    [timeEnd], [profileEnd] and [clear] forward none. *)
Theorem named_parameters_bound_the_forwarded_arguments IS_DEV m n :
  parameters_130 m = Some n →
  ∀ this args (w : world V130.statics),
    V130.isActivated IS_DEV this (VStr (method_name m)) w = (Return true, w) →
    snd (V130.invoke IS_DEV m this args w)
    = World (statics w) (heap w)
        (console w ++
         [Call (method_name m) (take n (args ++ replicate n VUndefined))]).
Proof.
  intros Hn this args w Hact.
  destruct m; simplify_eq/=; unfold_methods;
    rewrite (V130_proxyRun_active _ _ _ _ _ Hact); by destruct args.
Qed.

(** What a log-style call leaves: the world as it was, or one more call
    with the prefix, the colour and the wrapped arguments. *)
Lemma V130_logProxyRun_world IS_DEV self (method color : string) args w :
  snd (V130.logProxyRun IS_DEV self method color args w) = w ∨
  ∃ N, snd (V130.logProxyRun IS_DEV self method color args w)
       = World (statics w) (heap w)
           (console w ++
            [Call method
               (VStr ("%c[" +:+ N +:+ "]:%c") :: VStr ("color: " +:+ color)
                :: VStr ""
                :: map (λ arg, if validation.isElement arg then VArr [arg] else arg)
                     args)]).
Proof.
  unfold V130.logProxyRun, bind. rewrite V130_isActivated_run.
  destruct (activation_rules_first _ _ _ _) as [[|]|]; simpl; [|by left..].
  unfold V130.get_name. unfold_monad. step_all; eauto.
Qed.

Lemma V120_logProxyRun_world IS_DEV self (method color : string) args w :
  snd (V120.logProxyRun IS_DEV self method color args w) = w ∨
  ∃ N, snd (V120.logProxyRun IS_DEV self method color args w)
       = World (statics w) (heap w)
           (console w ++
            [Call method
               (VStr ("%c[" +:+ N +:+ "]:%c") :: VStr ("color: " +:+ color)
                :: VStr ""
                :: map (λ arg, if validation.isElement arg then VArr [arg] else arg)
                     args)]).
Proof.
  unfold V120.logProxyRun, bind. rewrite V120_isActivated_run.
  destruct (activation_debug_first _ _ _ _) as [[|]|]; simpl; [|by left..].
  unfold V120.get_name. unfold_monad. step_all; eauto.
Qed.

Lemma V110_factory_world IS_DEV self (method color : string) args w :
  snd (V110.factory IS_DEV self method color args w) = w ∨
  ∃ N, snd (V110.factory IS_DEV self method color args w)
       = World (statics w) (heap w)
           (console w ++
            [Call method
               (VStr ("%c[" +:+ N +:+ "]:%c") :: VStr ("color: " +:+ color)
                :: VStr ""
                :: map (λ arg, if validation.isElement arg then VArr [arg] else arg)
                     args)]).
Proof.
  unfold V110.factory, bind. rewrite V110_isActivated_run.
  destruct (activation_debug_first _ _ _ _) as [[|]|]; simpl; [|by left..].
  unfold V110.get_name. unfold_monad. step_all; eauto.
Qed.

(** What a pass-through call leaves: the world as it was, or one more
    call under the method's name with the arguments given. *)
Lemma V130_proxyRun_world IS_DEV self (method : string) args w :
  snd (V130.proxyRun IS_DEV self method args w) = w ∨
  snd (V130.proxyRun IS_DEV self method args w)
  = World (statics w) (heap w) (console w ++ [Call method args]).
Proof.
  unfold V130.proxyRun, bind. rewrite V130_isActivated_run.
  destruct (activation_rules_first _ _ _ _) as [[|]|]; simpl; eauto.
Qed.

Lemma V120_proxyRun_world IS_DEV self (method : string) args w :
  snd (V120.proxyRun IS_DEV self method args w) = w ∨
  snd (V120.proxyRun IS_DEV self method args w)
  = World (statics w) (heap w) (console w ++ [Call method args]).
Proof.
  unfold V120.proxyRun, bind. rewrite V120_isActivated_run.
  destruct (activation_debug_first _ _ _ _) as [[|]|]; simpl; eauto.
Qed.

Lemma V110_proxyRun_world IS_DEV self (method : string) args w :
  snd (V110.proxyRun IS_DEV self method args w) = w ∨
  snd (V110.proxyRun IS_DEV self method args w)
  = World (statics w) (heap w) (console w ++ [Call method args]).
Proof.
  unfold V110.proxyRun, bind. rewrite V110_isActivated_run.
  destruct (activation_debug_first _ _ _ _) as [[|]|]; simpl; eauto.
Qed.

Lemma V130_invoke_world IS_DEV m this args w :
  snd (V130.invoke IS_DEV m this args w) = w ∨
  ∃ forwarded,
    snd (V130.invoke IS_DEV m this args w)
    = World (statics w) (heap w)
        (console w ++ [Call (console_target m) forwarded]).
Proof.
  destruct m; simpl; unfold_methods; rewrite ?V130_error_run; try (by left);
  first
    [ destruct (V130_logProxyRun_world IS_DEV this "log" "lightseagreen" args w)
        as [?|[N ?]]; by eauto
    | destruct (V130_logProxyRun_world IS_DEV this "warn" "goldenrod" args w)
        as [?|[N ?]]; by eauto
    | destruct (V130_logProxyRun_world IS_DEV this "trace" "lightseagreen" args w)
        as [?|[N ?]]; by eauto
    | match goal with
      | |- context [V130.proxyRun IS_DEV this ?name ?forwarded w] =>
          destruct (V130_proxyRun_world IS_DEV this name forwarded w); by eauto
      end ].
Qed.

Lemma V120_invoke_world IS_DEV m this args w :
  snd (V120.invoke IS_DEV m this args w) = w ∨
  ∃ forwarded,
    snd (V120.invoke IS_DEV m this args w)
    = World (statics w) (heap w)
        (console w ++ [Call (console_target m) forwarded]).
Proof.
  destruct m; simpl; unfold_methods; rewrite ?V120_error_run; try (by left);
  first
    [ destruct (V120_logProxyRun_world IS_DEV this "log" "lightseagreen" args w)
        as [?|[N ?]]; by eauto
    | destruct (V120_logProxyRun_world IS_DEV this "warn" "goldenrod" args w)
        as [?|[N ?]]; by eauto
    | destruct (V120_logProxyRun_world IS_DEV this "trace" "lightseagreen" args w)
        as [?|[N ?]]; by eauto
    | match goal with
      | |- context [V120.proxyRun IS_DEV this ?name ?forwarded w] =>
          destruct (V120_proxyRun_world IS_DEV this name forwarded w); by eauto
      end ].
Qed.

Lemma V110_invoke_world IS_DEV m this args w :
  snd (V110.invoke IS_DEV m this args w) = w ∨
  ∃ forwarded,
    snd (V110.invoke IS_DEV m this args w)
    = World (statics w) (heap w)
        (console w ++ [Call (console_target m) forwarded]).
Proof.
  destruct m; simpl; unfold_methods; rewrite ?V110_error_run; try (by left);
  first
    [ destruct (V110_factory_world IS_DEV this "log" "lightseagreen" args w)
        as [?|[N ?]]; by eauto
    | destruct (V110_factory_world IS_DEV this "warn" "goldenrod" args w)
        as [?|[N ?]]; by eauto
    | destruct (V110_factory_world IS_DEV this "trace" "lightseagreen" args w)
        as [?|[N ?]]; by eauto
    | match goal with
      | |- context [V110.proxyRun IS_DEV this ?name ?forwarded w] =>
          destruct (V110_proxyRun_world IS_DEV this name forwarded w); by eauto
      end ].
Qed.

Lemma at_most_one_call {S} (w w' : world S) (target : string) :
  (w' = w ∨
   ∃ forwarded,
     w' = World (statics w) (heap w) (console w ++ [Call target forwarded])) →
  ∃ calls,
    w' = World (statics w) (heap w) (console w ++ calls) ∧
    (length calls ≤ 1)%nat ∧ ∀ c, c ∈ calls → c_method c = target.
Proof.
  intros [-> | [forwarded ->]].
  - exists []. rewrite world_eta. split; [done|]. split; [simpl; lia|].
    by intros c ?%elem_of_nil.
  - eexists [_]. split; [done|]. split; [simpl; lia|].
    by intros c ->%list_elem_of_singleton.
Qed.

(** X13.  Whatever the world, the instance and the arguments, a method
    call, [error] included, leaves the static state and every instance
    untouched and hands the console at most one call, and that call is
    to the console method of the same name ([log] for the aliases [info]
    and [debug]). *)
Theorem methods_hand_the_console_at_most_one_call IS_DEV m :
  (∀ this args (w : world V130.statics),
     ∃ calls,
       snd (V130.invoke IS_DEV m this args w)
       = World (statics w) (heap w) (console w ++ calls) ∧
       (length calls ≤ 1)%nat ∧ ∀ c, c ∈ calls → c_method c = console_target m) ∧
  (∀ this args (w : world V120.statics),
     ∃ calls,
       snd (V120.invoke IS_DEV m this args w)
       = World (statics w) (heap w) (console w ++ calls) ∧
       (length calls ≤ 1)%nat ∧ ∀ c, c ∈ calls → c_method c = console_target m) ∧
  (∀ this args (w : world V110.statics),
     ∃ calls,
       snd (V110.invoke IS_DEV m this args w)
       = World (statics w) (heap w) (console w ++ calls) ∧
       (length calls ≤ 1)%nat ∧ ∀ c, c ∈ calls → c_method c = console_target m).
Proof.
  split; [|split]; intros this args w; apply at_most_one_call.
  - apply V130_invoke_world.
  - apply V120_invoke_world.
  - apply V110_invoke_world.
Qed.

Lemma wrapped_arguments_hold_no_element args :
  Forall (λ a, validation.isElement a = false)
    (map (λ arg, if validation.isElement arg then VArr [arg] else arg) args).
Proof.
  apply Forall_fmap, Forall_forall. intros a _. simpl. by destruct a.
Qed.


Lemma log_style_call_has_no_element (old : list call) (method N color : string)
    args c :
  c ∈ (old ++
       [Call method
          (VStr N :: VStr color :: VStr ""
           :: map (λ arg, if validation.isElement arg then VArr [arg] else arg)
                args)])%list →
  c ∈ old ∨
  (c_method c = method ∧ Forall (λ a, validation.isElement a = false) (c_args c)).
Proof.
  intros [Hc | ->%list_elem_of_singleton]%elem_of_app; [by left|right].
  split; [done|]. simpl. repeat (constructor; [done|]).
  apply wrapped_arguments_hold_no_element.
Qed.

Lemma V130_log_style_world IS_DEV m color this args w :
  prefix_color m = Some color →
  snd (V130.invoke IS_DEV m this args w) = w ∨
  ∃ N, snd (V130.invoke IS_DEV m this args w)
       = World (statics w) (heap w)
           (console w ++
            [Call (console_target m)
               (VStr ("%c[" +:+ N +:+ "]:%c") :: VStr ("color: " +:+ color)
                :: VStr ""
                :: map (λ arg, if validation.isElement arg then VArr [arg] else arg)
                     args)]).
Proof.
  intros Hc. destruct m; simplify_eq/=; unfold_methods;
    apply V130_logProxyRun_world.
Qed.

Lemma V120_log_style_world IS_DEV m color this args w :
  prefix_color m = Some color →
  snd (V120.invoke IS_DEV m this args w) = w ∨
  ∃ N, snd (V120.invoke IS_DEV m this args w)
       = World (statics w) (heap w)
           (console w ++
            [Call (console_target m)
               (VStr ("%c[" +:+ N +:+ "]:%c") :: VStr ("color: " +:+ color)
                :: VStr ""
                :: map (λ arg, if validation.isElement arg then VArr [arg] else arg)
                     args)]).
Proof.
  intros Hc. destruct m; simplify_eq/=; unfold_methods;
    apply V120_logProxyRun_world.
Qed.

Lemma V110_log_style_world IS_DEV m color this args w :
  prefix_color m = Some color →
  snd (V110.invoke IS_DEV m this args w) = w ∨
  ∃ N, snd (V110.invoke IS_DEV m this args w)
       = World (statics w) (heap w)
           (console w ++
            [Call (console_target m)
               (VStr ("%c[" +:+ N +:+ "]:%c") :: VStr ("color: " +:+ color)
                :: VStr ""
                :: map (λ arg, if validation.isElement arg then VArr [arg] else arg)
                     args)]).
Proof.
  intros Hc. destruct m; simplify_eq/=; unfold_methods;
    apply V110_factory_world.
Qed.

(** X9.  Whatever the world, the instance and the arguments, a call a
    log-style method adds to the console goes to the console method of
    the same name ([log] for the aliases) and has no DOM element among
    its arguments: elements arrive inside arrays only. *)
Theorem log_style_methods_never_forward_a_bare_element IS_DEV m color :
  prefix_color m = Some color →
  (∀ this args (w : world V130.statics) c,
     c ∈ console (snd (V130.invoke IS_DEV m this args w)) →
     c ∈ console w ∨
     (c_method c = console_target m ∧
      Forall (λ a, validation.isElement a = false) (c_args c))) ∧
  (∀ this args (w : world V120.statics) c,
     c ∈ console (snd (V120.invoke IS_DEV m this args w)) →
     c ∈ console w ∨
     (c_method c = console_target m ∧
      Forall (λ a, validation.isElement a = false) (c_args c))) ∧
  (∀ this args (w : world V110.statics) c,
     c ∈ console (snd (V110.invoke IS_DEV m this args w)) →
     c ∈ console w ∨
     (c_method c = console_target m ∧
      Forall (λ a, validation.isElement a = false) (c_args c))).
Proof.
  intros Hc. split; [|split]; intros this args w c Hin.
  - destruct (V130_log_style_world IS_DEV m color this args w Hc)
      as [Heq|[N Heq]]; rewrite Heq in Hin; [by left|].
    by eapply log_style_call_has_no_element.
  - destruct (V120_log_style_world IS_DEV m color this args w Hc)
      as [Heq|[N Heq]]; rewrite Heq in Hin; [by left|].
    by eapply log_style_call_has_no_element.
  - destruct (V110_log_style_world IS_DEV m color this args w Hc)
      as [Heq|[N Heq]]; rewrite Heq in Hin; [by left|].
    by eapply log_style_call_has_no_element.
Qed.

(** X12.  [color(c)] changes nothing and returns a function that
    checks activation under ["log"] each time it is called, in the world
    of the call and not of its creation: it forwards nothing where the
    check fails, and where it passes it adds one [log] call whose
    second argument is ["color: c"].  Revisions 1.3.0 and 1.1.0. *)
Theorem color_is_checked_when_called IS_DEV this (c : string) :
  (∀ w0 : world V130.statics,
     ∃ f, V130.color IS_DEV this (VStr c) w0 = (Return f, w0) ∧
       ∀ args N d (w : world V130.statics),
         instance_view w this = Some (VStr N, d) →
         (V130.isActivated IS_DEV this (VStr "log") w = (Return false, w) →
          f args w = (Return this, w)) ∧
         (V130.isActivated IS_DEV this (VStr "log") w = (Return true, w) →
          f args w
          = (Return this,
             World (statics w) (heap w)
               (console w ++
                [Call "log"
                   (VStr ("%c[" +:+ N +:+ "]:%c") :: VStr ("color: " +:+ c)
                    :: VStr ""
                    :: map (λ arg, if validation.isElement arg
                                   then VArr [arg] else arg) args)])))) ∧
  (∀ w0 : world V110.statics,
     ∃ f, V110.color IS_DEV this (VStr c) w0 = (Return f, w0) ∧
       ∀ args N d (w : world V110.statics),
         instance_view w this = Some (VStr N, d) →
         (V110.isActivated IS_DEV this (VStr "log") w = (Return false, w) →
          f args w = (Return this, w)) ∧
         (V110.isActivated IS_DEV this (VStr "log") w = (Return true, w) →
          f args w
          = (Return this,
             World (statics w) (heap w)
               (console w ++
                [Call "log"
                   (VStr ("%c[" +:+ N +:+ "]:%c") :: VStr ("color: " +:+ c)
                    :: VStr ""
                    :: map (λ arg, if validation.isElement arg
                                   then VArr [arg] else arg) args)])))).
Proof.
  split; intros w0; (eexists; split; [reflexivity|]);
    intros args N d w Hv; split; intros Hact.
  - by apply V130_logProxyRun_inactive.
  - by apply (V130_logProxyRun_active _ _ _ _ _ _ _ d).
  - by apply V110_factory_inactive.
  - by apply (V110_factory_active _ _ _ _ _ _ _ d).
Qed.

(** Writing one instance's [debug] leaves the view of every other. *)
Lemma view_after_write_other {S} this other key v (w : world S) :
  other ≠ this →
  instance_view (snd (write_option this key v w)) other = instance_view w other.
Proof.
  intros Hne. unfold write_option, instance_view.
  destruct (heap w !! this) as [o|] eqn:Ho; simpl; [|done].
  by rewrite list_lookup_insert_ne.
Qed.

Lemma view_after_alloc {S} o other (w : world S) :
  other < length (heap w) →
  instance_view (snd (alloc o w)) other = instance_view w other.
Proof.
  intros Hlt. unfold alloc, instance_view. simpl.
  by rewrite lookup_app_l.
Qed.


Lemma snd_bind_ret {S A B} (m : M S A) (b : B) (w : world S) :
  snd (bind m (λ _, ret b) w) = snd (m w).
Proof. unfold bind. by destruct (m w) as [[a|e] w']. Qed.

Lemma statics_after_write {S} this key v (w : world S) :
  statics (snd (write_option this key v w)) = statics w.
Proof. unfold write_option. by destruct (heap w !! this). Qed.

Lemma V130_constructor_run options (w : world V130.statics) :
  ∃ o, V130.constructor options w = alloc o w.
Proof. unfold V130.constructor, bind, get_statics. simpl. eauto. Qed.

Lemma V120_constructor_run options (w : world V120.statics) :
  ∃ o, V120.constructor options w = alloc o w.
Proof.
  unfold V120.constructor, bind, get_statics. simpl. destruct options; eauto.
Qed.

Lemma V110_constructor_run options (w : world V110.statics) :
  ∃ o, V110.constructor options w = alloc o w.
Proof. unfold V110.constructor. destruct options; eauto. Qed.

(** X14.  Instances share no mutable state: [enable] and [disable] on
    one instance do not change what [isActivated] answers for another,
    and constructing an instance returns a fresh reference and does not
    change what it answers for the instances that exist.  Revisions
    1.3.0 and 1.1.0. *)
Theorem instances_are_independent IS_DEV (method : value) :
  (∀ this other (w : world V130.statics),
     other ≠ this →
     fst (V130.isActivated IS_DEV other method (snd (V130.disable this w)))
     = fst (V130.isActivated IS_DEV other method w) ∧
     fst (V130.isActivated IS_DEV other method (snd (V130.enable this w)))
     = fst (V130.isActivated IS_DEV other method w)) ∧
  (∀ options other (w : world V130.statics),
     other < length (heap w) →
     fst (V130.constructor options w) = Return (length (heap w)) ∧
     fst (V130.isActivated IS_DEV other method (snd (V130.constructor options w)))
     = fst (V130.isActivated IS_DEV other method w)) ∧
  (∀ this other (w : world V110.statics),
     other ≠ this →
     fst (V110.isActivated IS_DEV other method (snd (V110.disable this w)))
     = fst (V110.isActivated IS_DEV other method w) ∧
     fst (V110.isActivated IS_DEV other method (snd (V110.enable this w)))
     = fst (V110.isActivated IS_DEV other method w)) ∧
  (∀ options other (w : world V110.statics),
     other < length (heap w) →
     fst (V110.constructor options w) = Return (length (heap w)) ∧
     fst (V110.isActivated IS_DEV other method (snd (V110.constructor options w)))
     = fst (V110.isActivated IS_DEV other method w)).
Proof.
  split; [|split; [|split]].
  - intros this other w Hne. unfold V130.disable, V130.enable.
    rewrite !V130_isActivated_run, !snd_bind_ret. simpl.
    by rewrite !statics_after_write, !view_after_write_other.
  - intros options other w Hlt.
    destruct (V130_constructor_run options w) as [o ->].
    split; [done|]. rewrite !V130_isActivated_run.
    by rewrite (view_after_alloc o other w Hlt).
  - intros this other w Hne. unfold V110.disable, V110.enable, V110.set_debug.
    rewrite !V110_isActivated_run, !snd_bind_ret. simpl.
    by rewrite !statics_after_write, !view_after_write_other.
  - intros options other w Hlt.
    destruct (V110_constructor_run options w) as [o ->].
    split; [done|]. rewrite !V110_isActivated_run.
    by rewrite (view_after_alloc o other w Hlt).
Qed.

End Output.

Section Rules.
Context `{Host}.
Implicit Types (IS_DEV d : value) (this : ref) (rules : obj) (N M : string).

Lemma resolve_no_boolean_sub rules N (method : value) :
  (truthy method = true →
   ∃ m, ToString method = Some m ∧
        validation.isBoolean (get rules (N +:+ "." +:+ m)) = false) →
  resolve rules N method = Return (get rules N).
Proof.
  intros Hsub. unfold resolve. destruct (truthy method); [|done].
  destruct Hsub as (m & -> & ->); done.
Qed.

Lemma resolve_falsy_method rules N (method : value) :
  truthy method = false → resolve rules N method = Return (get rules N).
Proof. intros Hm. unfold resolve. by rewrite Hm. Qed.


(** With the namespace entry for a status, both orders of the tests
    give the same answer. *)
Lemma activation_rules_first_status IS_DEV rules N d (method : value) :
  resolve rules N method = Return (get rules N) →
  activation_rules_first IS_DEV rules (Some (VStr N, d)) method
  = Return (truthy IS_DEV && negb (strict_false (get rules N)) && truthy d).
Proof.
  intros Hr. unfold activation_rules_first. simpl. rewrite Hr.
  by destruct (truthy IS_DEV), (strict_false (get rules N)), (truthy d).
Qed.

Lemma activation_debug_first_status IS_DEV rules N d (method : value) :
  resolve rules N method = Return (get rules N) →
  activation_debug_first IS_DEV rules (Some (VStr N, d)) method
  = Return (truthy IS_DEV && negb (strict_false (get rules N)) && truthy d).
Proof.
  intros Hr. unfold activation_debug_first. simpl. rewrite Hr.
  by destruct (truthy IS_DEV), (strict_false (get rules N)), (truthy d).
Qed.

Lemma resolve_string_no_boolean rules N M :
  validation.isBoolean (get rules (N +:+ "." +:+ M)) = false →
  resolve rules N (VStr M) = Return (get rules N).
Proof.
  intros Hsub. apply resolve_no_boolean_sub. intros _. by exists M.
Qed.

(** X3.  With development mode on and a truthy [debug], an instance
    named [N] is activated for a method [M] whenever the entry for
    ["N"] is anything but the boolean [false] (absent included) and the
    entry for ["N.M"] is not a boolean (absent included): entries of
    other types never disable. *)
Theorem no_disabling_rule_means_activated IS_DEV N M d :
  truthy IS_DEV = true → truthy d = true →
  (∀ this (w : world V130.statics),
     instance_view w this = Some (VStr N, d) →
     strict_false (get (V130.Logger_rules (statics w)) N) = false →
     validation.isBoolean
       (get (V130.Logger_rules (statics w)) (N +:+ "." +:+ M)) = false →
     V130.isActivated IS_DEV this (VStr M) w = (Return true, w)) ∧
  (∀ this (w : world V120.statics),
     instance_view w this = Some (VStr N, d) →
     strict_false (get (V120._rules (statics w)) N) = false →
     validation.isBoolean
       (get (V120._rules (statics w)) (N +:+ "." +:+ M)) = false →
     V120.isActivated IS_DEV this (VStr M) w = (Return true, w)) ∧
  (∀ this (w : world V110.statics),
     instance_view w this = Some (VStr N, d) →
     strict_false (get (V110.Logger_options (statics w)) N) = false →
     validation.isBoolean
       (get (V110.Logger_options (statics w)) (N +:+ "." +:+ M)) = false →
     V110.isActivated IS_DEV this (VStr M) w = (Return true, w)).
Proof.
  intros Hdev Hd. split; [|split]; intros this w Hv Hns Hsub.
  - rewrite V130_isActivated_run, Hv.
    rewrite activation_rules_first_status
      by (by apply resolve_string_no_boolean).
    by rewrite Hdev, Hns, Hd.
  - rewrite V120_isActivated_run, Hv.
    rewrite activation_debug_first_status
      by (by apply resolve_string_no_boolean).
    by rewrite Hdev, Hns, Hd.
  - rewrite V110_isActivated_run, Hv.
    rewrite activation_debug_first_status
      by (by apply resolve_string_no_boolean).
    by rewrite Hdev, Hns, Hd.
Qed.

Lemma get_lookup (o : obj) k v : o !! k = Some v → get o k = v.
Proof. intros Hk. unfold get. by rewrite Hk. Qed.

(** X4.  With ["N" = false] in the rules, every method of an instance
    named [N] whose own entry (["N.log"] for [log], [info] and [debug])
    is not a boolean fails its activation check and forwards nothing,
    whatever the development flag and [debug] are. *)
Theorem namespace_false_disables_its_methods IS_DEV N :
  (∀ this d m args (w : world V130.statics),
     instance_view w this = Some (VStr N, d) →
     V130.Logger_rules (statics w) !! N = Some (VBool false) →
     validation.isBoolean
       (get (V130.Logger_rules (statics w))
            (N +:+ "." +:+ console_target m)) = false →
     V130.isActivated IS_DEV this (VStr (console_target m)) w
     = (Return false, w) ∧
     snd (V130.invoke IS_DEV m this args w) = w) ∧
  (∀ this d m args (w : world V120.statics),
     instance_view w this = Some (VStr N, d) →
     V120._rules (statics w) !! N = Some (VBool false) →
     validation.isBoolean
       (get (V120._rules (statics w))
            (N +:+ "." +:+ console_target m)) = false →
     V120.isActivated IS_DEV this (VStr (console_target m)) w
     = (Return false, w) ∧
     snd (V120.invoke IS_DEV m this args w) = w) ∧
  (∀ this d m args (w : world V110.statics),
     instance_view w this = Some (VStr N, d) →
     V110.Logger_options (statics w) !! N = Some (VBool false) →
     validation.isBoolean
       (get (V110.Logger_options (statics w))
            (N +:+ "." +:+ console_target m)) = false →
     V110.isActivated IS_DEV this (VStr (console_target m)) w
     = (Return false, w) ∧
     snd (V110.invoke IS_DEV m this args w) = w).
Proof.
  split; [|split]; intros this d m args w Hv Hns Hsub.
  - assert (V130.isActivated IS_DEV this (VStr (console_target m)) w
            = (Return false, w)) as Hact.
    { rewrite V130_isActivated_run, Hv.
      rewrite activation_rules_first_status
        by (by apply resolve_string_no_boolean).
      rewrite (get_lookup _ _ _ Hns). simpl. by rewrite andb_false_r. }
    split; [done|]. by apply V130_invoke_quiet.
  - assert (V120.isActivated IS_DEV this (VStr (console_target m)) w
            = (Return false, w)) as Hact.
    { rewrite V120_isActivated_run, Hv.
      rewrite activation_debug_first_status
        by (by apply resolve_string_no_boolean).
      rewrite (get_lookup _ _ _ Hns). simpl. by rewrite andb_false_r. }
    split; [done|]. by apply V120_invoke_quiet.
  - assert (V110.isActivated IS_DEV this (VStr (console_target m)) w
            = (Return false, w)) as Hact.
    { rewrite V110_isActivated_run, Hv.
      rewrite activation_debug_first_status
        by (by apply resolve_string_no_boolean).
      rewrite (get_lookup _ _ _ Hns). simpl. by rewrite andb_false_r. }
    split; [done|]. by apply V110_invoke_quiet.
Qed.

(** X5.  Called without a method, or with a falsy one such as the empty
    string, [isActivated] reads the namespace entry only: it answers
    [true] exactly when development mode is on, the entry for ["N"] is
    not the boolean [false] and [debug] is truthy, whatever the rules
    hold under ["N."] or ["N.undefined"]. *)
Theorem falsy_method_reads_the_namespace_rule_only IS_DEV N d (method : value) :
  truthy method = false →
  (∀ this (w : world V130.statics),
     instance_view w this = Some (VStr N, d) →
     V130.isActivated IS_DEV this method w
     = (Return (truthy IS_DEV
                && negb (strict_false (get (V130.Logger_rules (statics w)) N))
                && truthy d), w)) ∧
  (∀ this (w : world V120.statics),
     instance_view w this = Some (VStr N, d) →
     V120.isActivated IS_DEV this method w
     = (Return (truthy IS_DEV
                && negb (strict_false (get (V120._rules (statics w)) N))
                && truthy d), w)) ∧
  (∀ this (w : world V110.statics),
     instance_view w this = Some (VStr N, d) →
     V110.isActivated IS_DEV this method w
     = (Return (truthy IS_DEV
                && negb (strict_false (get (V110.Logger_options (statics w)) N))
                && truthy d), w)).
Proof.
  intros Hm. split; [|split]; intros this w Hv.
  - rewrite V130_isActivated_run, Hv.
    by rewrite activation_rules_first_status by (by apply resolve_falsy_method).
  - rewrite V120_isActivated_run, Hv.
    by rewrite activation_debug_first_status by (by apply resolve_falsy_method).
  - rewrite V110_isActivated_run, Hv.
    by rewrite activation_debug_first_status by (by apply resolve_falsy_method).
Qed.

Lemma activation_orders_agree IS_DEV rules N d (method : value) :
  is_Some (ToString method) →
  activation_rules_first IS_DEV rules (Some (VStr N, d)) method
  = activation_debug_first IS_DEV rules (Some (VStr N, d)) method.
Proof.
  intros [m Hm]. unfold activation_rules_first, activation_debug_first, resolve.
  simpl. rewrite Hm.
  by repeat (case_match; simplify_eq/=).
Qed.

(** X7.  The order of the tests, which differs between the revisions,
    does not show: for instances with the same string name and the same
    [debug], the same rules and a method argument that has a text, the
    [isActivated] of 1.1.0, of 1.2.0 and of 1.3.0 give the same
    outcome. *)
Theorem revisions_agree_on_activation IS_DEV N d (method : value) :
  is_Some (ToString method) →
  ∀ this130 this120 this110 (w130 : world V130.statics)
    (w120 : world V120.statics) (w110 : world V110.statics),
    instance_view w130 this130 = Some (VStr N, d) →
    instance_view w120 this120 = Some (VStr N, d) →
    instance_view w110 this110 = Some (VStr N, d) →
    V120._rules (statics w120) = V130.Logger_rules (statics w130) →
    V110.Logger_options (statics w110) = V130.Logger_rules (statics w130) →
    fst (V120.isActivated IS_DEV this120 method w120)
    = fst (V130.isActivated IS_DEV this130 method w130) ∧
    fst (V110.isActivated IS_DEV this110 method w110)
    = fst (V130.isActivated IS_DEV this130 method w130).
Proof.
  intros Hm ?????? Hv130 Hv120 Hv110 HR120 HR110.
  rewrite V130_isActivated_run, V120_isActivated_run, V110_isActivated_run.
  simpl. rewrite Hv130, Hv120, Hv110, HR120, HR110.
  by rewrite activation_orders_agree.
Qed.

End Rules.

Section Config.
Context `{Host}.
Implicit Types (IS_DEV d : value) (this : ref) (rules options : obj)
  (N M k : string).

Lemma spread_lookup (acc src : obj) k :
  spread acc src !! k = match src !! k with Some v => Some v | None => acc !! k end.
Proof.
  unfold spread. rewrite lookup_union.
  by destruct (src !! k), (acc !! k).
Qed.

Lemma get_spread (acc src : obj) k :
  get (spread acc src) k = default (get acc k) (src !! k).
Proof. unfold get. rewrite spread_lookup. by destruct (src !! k). Qed.

Lemma spread_empty (src : obj) : spread ∅ src = src.
Proof. unfold spread. apply (right_id_L ∅ (∪)). Qed.

Lemma view_of_new {S} (w : world S) (o : obj) :
  instance_view (snd (alloc o w)) (length (heap w))
  = Some (get o "name", get o "debug").
Proof.
  unfold instance_view, alloc. simpl.
  by rewrite lookup_app_r, Nat.sub_diag by lia.
Qed.

(** X15.  The constructor lays the given options over the defaults,
    property by property: an options object decides [name] and [debug]
    where it has them and leaves the default where it does not; a
    namespace string sets the name and leaves [debug] at its default.
    The defaults are the current static options in 1.3.0 and 1.2.0 and
    the constants ['logger'] and [true] in 1.1.0. *)
Theorem constructor_lays_options_over_the_defaults :
  (∀ o name (w : world V130.statics),
     instance_view (snd (V130.constructor (Options o) w)) (length (heap w))
     = Some (default (get (V130.Logger_options (statics w)) "name") (o !! "name"),
             default (get (V130.Logger_options (statics w)) "debug")
                     (o !! "debug")) ∧
     instance_view (snd (V130.constructor (Namespace name) w)) (length (heap w))
     = Some (VStr name, get (V130.Logger_options (statics w)) "debug")) ∧
  (∀ o name (w : world V120.statics),
     instance_view (snd (V120.constructor (Options o) w)) (length (heap w))
     = Some (default (get (V120._options (statics w)) "name") (o !! "name"),
             default (get (V120._options (statics w)) "debug") (o !! "debug")) ∧
     instance_view (snd (V120.constructor (Namespace name) w)) (length (heap w))
     = Some (VStr name, get (V120._options (statics w)) "debug")) ∧
  (∀ o name (w : world V110.statics),
     instance_view (snd (V110.constructor (Options o) w)) (length (heap w))
     = Some (default (VStr "logger") (o !! "name"),
             default (VBool true) (o !! "debug")) ∧
     instance_view (snd (V110.constructor (Namespace name) w)) (length (heap w))
     = Some (VStr name, VBool true) ∧
     instance_view (snd (V110.constructor Omitted w)) (length (heap w))
     = Some (VStr "logger", VBool true)).
Proof.
  split; [|split].
  - intros o name w.
    assert (V130.constructor (Options o) w
            = alloc (spread (spread ∅ (V130.Logger_options (statics w))) o) w)
      as -> by done.
    assert (V130.constructor (Namespace name) w
            = alloc (<["name" := VStr name]>
                       (spread ∅ (V130.Logger_options (statics w)))) w)
      as -> by done.
    rewrite !view_of_new, !spread_empty, !get_spread. split; [done|].
    unfold get. by rewrite lookup_insert_eq, lookup_insert_ne.
  - intros o name w.
    assert (V120.constructor (Options o) w
            = alloc (spread (spread ∅ (V120._options (statics w))) o) w)
      as -> by done.
    assert (V120.constructor (Namespace name) w
            = alloc (<["name" := VStr name]>
                       (spread ∅ (V120._options (statics w)))) w)
      as -> by done.
    rewrite !view_of_new, !spread_empty, !get_spread. split; [done|].
    unfold get. by rewrite lookup_insert_eq, lookup_insert_ne.
  - intros o name w. unfold V110.constructor.
    by rewrite !view_of_new, !spread_empty, !get_spread.
Qed.

Lemma V120_configRules_stored LOGGER_RULES rules (w : world V120.statics) k :
  V120._rules (statics (snd (V120.configRules LOGGER_RULES rules w))) !! k
  = match LOGGER_RULES !! k with
    | Some v => Some v
    | None => match rules !! k with
              | Some v => Some v
              | None => V120._rules (statics w) !! k
              end
    end.
Proof.
  rewrite V120_configRules_run. simpl.
  rewrite !spread_lookup, lookup_empty.
  by destruct (LOGGER_RULES !! k), (rules !! k), (V120._rules (statics w) !! k).
Qed.

(** X16.  [configRules] of 1.2.0 merges: a stored entry that neither
    the call nor the environment's mapping mentions is kept; two calls
    in a row store what one call with the second patch laid over the
    first stores; and repeating a call changes nothing. *)
Theorem configRules_calls_merge LOGGER_RULES :
  (∀ rules k (w : world V120.statics),
     LOGGER_RULES !! k = None → rules !! k = None →
     V120._rules (statics (snd (V120.configRules LOGGER_RULES rules w))) !! k
     = V120._rules (statics w) !! k) ∧
  (∀ r1 r2 (w : world V120.statics),
     snd (V120.configRules LOGGER_RULES r2
            (snd (V120.configRules LOGGER_RULES r1 w)))
     = snd (V120.configRules LOGGER_RULES (spread r1 r2) w)) ∧
  (∀ rules (w : world V120.statics),
     snd (V120.configRules LOGGER_RULES rules
            (snd (V120.configRules LOGGER_RULES rules w)))
     = snd (V120.configRules LOGGER_RULES rules w)).
Proof.
  assert (∀ r1 r2 (w : world V120.statics),
            snd (V120.configRules LOGGER_RULES r2
                   (snd (V120.configRules LOGGER_RULES r1 w)))
            = snd (V120.configRules LOGGER_RULES (spread r1 r2) w)) as Hmerge.
  { intros r1 r2 w. rewrite !V120_configRules_run. simpl. do 2 f_equal.
    apply map_eq. intros k. rewrite !spread_lookup, lookup_empty.
    by destruct (LOGGER_RULES !! k), (r2 !! k), (r1 !! k),
         (V120._rules (statics w) !! k). }
  split; [|split].
  - intros rules k w Henv Hr. by rewrite V120_configRules_stored, Henv, Hr.
  - exact Hmerge.
  - intros rules w. rewrite Hmerge. do 2 f_equal.
    apply map_eq. intros k. rewrite spread_lookup. by destruct (rules !! k).
Qed.

Lemma V110_config_stored (options : option obj) (w : world V110.statics) k :
  V110.Logger_options (statics (snd (V110.config options w))) !! k
  = match V110.Logger_options (statics w) !! k with
    | Some v => Some v
    | None => default ∅ options !! k
    end.
Proof.
  unfold V110.config, bind, get_statics, set_statics. simpl.
  by rewrite spread_lookup, spread_empty.
Qed.

(** X17.  In 1.1.0 a stored entry is write-once: whatever sequence of
    [config] calls follows, with or without an argument, a key that has
    a value keeps it.  The entries read from [localStorage] at load are
    such entries. *)
Theorem V110_config_entries_are_write_once k v :
  ∀ (patches : list (option obj)) (w : world V110.statics),
    V110.Logger_options (statics w) !! k = Some v →
    V110.Logger_options (statics (run_each V110.config patches w)) !! k
    = Some v.
Proof.
  induction patches as [|patch patches IH]; intros w Hk; [done|].
  change (run_each V110.config (patch :: patches) w)
    with (run_each V110.config patches (snd (V110.config patch w))).
  apply IH. by rewrite V110_config_stored, Hk.
Qed.

Lemma V130_static_calls_frame LOGGER_RULES (patches : list (obj + obj)) :
  ∀ w : world V130.statics,
    V130.Logger_rules
      (statics (run_each (static_call_130 LOGGER_RULES) patches w))
    = V130.Logger_rules (statics w) ∧
    V130.Logger_options
      (statics (run_each (static_call_130 LOGGER_RULES) patches w))
    = V130.Logger_options (statics w) ∧
    heap (run_each (static_call_130 LOGGER_RULES) patches w) = heap w.
Proof.
  induction patches as [|patch patches IH]; intros w; [done|].
  change (run_each (static_call_130 LOGGER_RULES) (patch :: patches) w)
    with (run_each (static_call_130 LOGGER_RULES) patches
            (snd (static_call_130 LOGGER_RULES patch w))).
  destruct (IH (snd (static_call_130 LOGGER_RULES patch w))) as (-> & -> & ->).
  by destruct patch.
Qed.

(** X18.  In 1.3.0 no sequence of [configRules] and [config] calls
    changes the class fields [Logger.rules] and [Logger.options]; so it
    changes neither what [isActivated] answers nor the name and [debug]
    of an instance constructed afterwards. *)
Theorem V130_static_calls_leave_the_class_fields LOGGER_RULES IS_DEV
    (patches : list (obj + obj)) (w : world V130.statics) :
  V130.Logger_rules
    (statics (run_each (static_call_130 LOGGER_RULES) patches w))
  = V130.Logger_rules (statics w) ∧
  V130.Logger_options
    (statics (run_each (static_call_130 LOGGER_RULES) patches w))
  = V130.Logger_options (statics w) ∧
  (∀ this (method : value),
     fst (V130.isActivated IS_DEV this method
            (run_each (static_call_130 LOGGER_RULES) patches w))
     = fst (V130.isActivated IS_DEV this method w)) ∧
  (∀ opts : ctor_options,
     instance_view
       (snd (V130.constructor opts
               (run_each (static_call_130 LOGGER_RULES) patches w)))
       (length (heap w))
     = instance_view (snd (V130.constructor opts w)) (length (heap w))).
Proof.
  destruct (V130_static_calls_frame LOGGER_RULES patches w) as (HR & HO & Hh).
  split; [done|]. split; [done|]. split.
  - intros this method. rewrite !V130_isActivated_run. simpl.
    unfold instance_view. by rewrite HR, Hh.
  - intros opts. unfold V130.constructor, bind, get_statics, alloc,
      instance_view. simpl. by rewrite Hh, HO.
Qed.

(** X19.  In 1.2.0 a boolean entry ["N.M"] given to [configRules]
    decides [isActivated(M)] for an instance named [N] with [debug]
    true, in development mode, unless the environment's mapping has an
    entry for the same key: whatever was stored before, the check
    answers the boolean. *)
Theorem V120_configRules_decides_activation LOGGER_RULES IS_DEV N M b :
  truthy IS_DEV = true → M ≠ "" →
  LOGGER_RULES !! (N +:+ "." +:+ M) = None →
  ∀ rules this (w : world V120.statics),
    rules !! (N +:+ "." +:+ M) = Some (VBool b) →
    instance_view w this = Some (VStr N, VBool true) →
    V120.isActivated IS_DEV this (VStr M)
      (snd (V120.configRules LOGGER_RULES rules w))
    = (Return b, snd (V120.configRules LOGGER_RULES rules w)).
Proof.
  intros Hdev HM Henv rules this w Hr Hv.
  rewrite V120_isActivated_run.
  assert (instance_view (snd (V120.configRules LOGGER_RULES rules w)) this
          = Some (VStr N, VBool true)) as -> by done.
  rewrite (activation_debug_first_sub _ _ N M b); [done..|].
  by rewrite V120_configRules_stored, Henv, Hr.
Qed.

End Config.

Section Load.
Context `{Host}.

Lemma truthy_load_IS_DEV (stored NODE_ENV : value) :
  truthy (load_IS_DEV stored NODE_ENV)
  = truthy stored || is_development NODE_ENV.
Proof.
  unfold load_IS_DEV. destruct (truthy stored) eqn:Hs; [by rewrite Hs|done].
Qed.

(** X20.  The development flag of 1.3.0 as computed at load: when the
    stored [IS_DEV] is falsy or absent and [NODE_ENV] is not
    ['development'], no method of any instance forwards anything; when
    the stored value is truthy or [NODE_ENV] is ['development'], a
    fresh instance with no rules set is activated. *)
Theorem development_flag_gates_everything (stored NODE_ENV : value) :
  (truthy stored = false → is_development NODE_ENV = false →
   ∀ m this args (w : world V130.statics),
     snd (V130.invoke (load_IS_DEV stored NODE_ENV) m this args w) = w) ∧
  (truthy stored = true ∨ NODE_ENV = VStr "development" →
   ∀ name,
     ∃ this w,
       V130.constructor (Namespace name) (V130.init ∅) = (Return this, w) ∧
       V130.isActivated (load_IS_DEV stored NODE_ENV) this (VStr "log") w
       = (Return true, w)).
Proof.
  split.
  - intros Hs He m this args w. apply V130_invoke_quiet.
    unfold V130.isActivated. by rewrite truthy_load_IS_DEV, Hs, He.
  - intros Hon name. eexists _, _. split; [reflexivity|].
    rewrite V130_isActivated_run.
    assert (truthy (load_IS_DEV stored NODE_ENV) = true) as Hdev.
    { rewrite truthy_load_IS_DEV. destruct Hon as [-> | ->]; [done|].
      by rewrite orb_true_r. }
    unfold activation_rules_first. rewrite Hdev. vm_compute. reflexivity.
Qed.

End Load.

Section Revision_120.
Context `{Host}.

(** X21.  [error] of 1.2.0 never returns and leaves the world as it
    was, and what it throws depends on the arguments alone: it is what
    [error] of 1.3.0 and of 1.1.0 throw for the same arguments. *)
Theorem V120_error_is_the_same_error this args (w : world V120.statics) :
  snd (V120.error this args w) = w ∧
  (∃ e, fst (V120.error this args w) = Throw e) ∧
  (∀ this' (w' : world V130.statics),
     fst (V120.error this args w) = fst (V130.error this' args w')) ∧
  (∀ this' (w' : world V110.statics),
     fst (V120.error this args w) = fst (V110.error this' args w')).
Proof.
  rewrite V120_error_run. simpl. split; [done|]. split.
  - destruct (mapM toString args); eauto.
  - split; intros this' w'.
    + by rewrite V130_error_run.
    + by rewrite V110_error_run.
Qed.

(** X22.  [table] of 1.2.0 is [proxyRun(this, 'table', data)] for every
    datum: the only call it can add to the console is [table(data)],
    never a [log]. *)
Theorem V120_table_always_proxies IS_DEV this (data : value)
    (w : world V120.statics) :
  V120.table IS_DEV this data w = V120.proxyRun IS_DEV this "table" [data] w ∧
  ∀ c, c ∈ console (snd (V120.table IS_DEV this data w)) →
       c ∈ console w ∨ c = Call "table" [data].
Proof.
  unfold V120.table. rewrite isArray_and_isPlainObject. split; [done|].
  intros c. unfold V120.proxyRun, bind. rewrite V120_isActivated_run.
  destruct (activation_debug_first _ _ _ _) as [[|]|]; simpl; [|by left..].
  intros [?| ->%list_elem_of_singleton]%elem_of_app; [by left|by right].
Qed.

End Revision_120.

Section More_examples.
#[local] Existing Instance example_host.

Lemma disable_silences_every_method_witness :
  snd (V130.invoke (VBool true) m_log 0 [VStr "x"]
         (snd (V130.disable 0 (world_130 rules_error_on))))
  = snd (V130.disable 0 (world_130 rules_error_on)).
Proof.
  apply (proj1 (@disable_silences_every_method example_host (VBool true))
           0 "request" (VBool true)).
  vm_compute; reflexivity.
Defined.

Lemma disable_then_enable_restores_witness :
  V130.enable 0 (snd (V130.disable 0 (world_130 ∅))) = (Return 0, world_130 ∅).
Proof.
  apply (proj1 (@disable_then_enable_restores example_host) 0 request_options);
    vm_compute; reflexivity.
Defined.

Lemma no_disabling_rule_means_activated_witness :
  V130.isActivated (VBool true) 0 (VStr "log") (world_130 rules_malformed)
  = (Return true, world_130 rules_malformed).
Proof.
  apply (proj1 (@no_disabling_rule_means_activated example_host (VBool true)
                  "request" "log" (VBool true) eq_refl eq_refl));
    vm_compute; reflexivity.
Defined.

Lemma namespace_false_disables_its_methods_witness :
  snd (V130.invoke (VBool true) m_info 0 [VStr "x"] (world_130 rules_request_off))
  = world_130 rules_request_off.
Proof.
  apply (proj1 (@namespace_false_disables_its_methods example_host (VBool true)
                  "request") 0 (VBool true));
    vm_compute; reflexivity.
Defined.

Lemma falsy_method_reads_the_namespace_rule_only_witness :
  fst (V130.isActivated (VBool true) 0 (VStr "")
         (world_130 rules_empty_method_off))
  = Return true.
Proof.
  rewrite (proj1 (@falsy_method_reads_the_namespace_rule_only example_host
                    (VBool true) "request" (VBool true) (VStr "") eq_refl)
             0 (world_130 rules_empty_method_off))
    by (vm_compute; reflexivity).
  vm_compute; reflexivity.
Defined.

Lemma debug_off_beats_every_rule_witness :
  V130.isActivated (VBool true) 1 (VStr "log") two_instances_130
  = (Return false, two_instances_130).
Proof.
  apply (proj1 (@debug_off_beats_every_rule example_host (VBool true)
                  (VBool false) eq_refl) 1 "response").
  vm_compute; reflexivity.
Defined.

Lemma revisions_agree_on_activation_witness :
  fst (V110.isActivated (VBool true) 0 (VStr "error") (world_110 rules_error_off))
  = fst (V130.isActivated (VBool true) 0 (VStr "error")
           (world_130 rules_error_off)).
Proof.
  apply (@revisions_agree_on_activation example_host (VBool true) "request"
           (VBool true) (VStr "error") ltac:(by eexists)
           0 0 0 (world_130 rules_error_off) (world_120 rules_error_off)
           (world_110 rules_error_off));
    vm_compute; reflexivity.
Defined.

Lemma log_style_methods_output_witness :
  V130.invoke (VBool true) m_warn 0 [VStr "slow"; a_div] (world_130 ∅)
  = (Return 0,
     World (statics (world_130 ∅)) (heap (world_130 ∅))
       (console (world_130 ∅) ++
        [Call "warn"
           [VStr "%c[request]:%c"; VStr "color: goldenrod"; VStr "";
            VStr "slow"; VArr [a_div]]])).
Proof.
  apply (proj1 (@log_style_methods_output example_host (VBool true) m_warn
                  "goldenrod" eq_refl) 0 "request" (VBool true));
    vm_compute; reflexivity.
Defined.

Lemma log_style_methods_never_forward_a_bare_element_witness :
  Call "log" [VStr "%c[request]:%c"; VStr "color: lightseagreen"; VStr "";
              VArr [a_div]]
  ∈ console (world_130 ∅) ∨
  (c_method
     (Call "log" [VStr "%c[request]:%c"; VStr "color: lightseagreen"; VStr "";
                  VArr [a_div]]) = "log" ∧
   Forall (λ a, validation.isElement a = false)
     (c_args
        (Call "log" [VStr "%c[request]:%c"; VStr "color: lightseagreen";
                     VStr ""; VArr [a_div]]))).
Proof.
  apply (proj1 (@log_style_methods_never_forward_a_bare_element example_host
                  (VBool true) m_log "lightseagreen" eq_refl)
           0 [a_div] (world_130 ∅)).
  vm_compute. constructor.
Defined.

Lemma pass_through_methods_forward_unmodified_witness :
  snd (V130.invoke (VBool true) m_dir 0 [a_div; VStr "x"] (world_130 ∅))
  = World (statics (world_130 ∅)) (heap (world_130 ∅))
      (console (world_130 ∅) ++ [Call "dir" [a_div; VStr "x"]]).
Proof.
  apply (proj1 (@pass_through_methods_forward_unmodified example_host
                  (VBool true) m_dir));
    vm_compute; reflexivity.
Defined.

Lemma named_parameters_bound_the_forwarded_arguments_witness :
  snd (V130.invoke (VBool true) m_count 0 [] (world_130 ∅))
  = World (statics (world_130 ∅)) (heap (world_130 ∅))
      (console (world_130 ∅) ++ [Call "count" [VUndefined]]).
Proof.
  apply (@named_parameters_bound_the_forwarded_arguments example_host
           (VBool true) m_count 1 eq_refl 0 []).
  vm_compute; reflexivity.
Defined.

Lemma color_is_checked_when_called_witness :
  ∃ f, V130.color (VBool true) 0 (VStr "tomato") (world_130 ∅)
       = (Return f, world_130 ∅) ∧
       f [VStr "x"] (snd (V130.disable 0 (world_130 ∅)))
       = (Return 0, snd (V130.disable 0 (world_130 ∅))).
Proof.
  destruct (proj1 (@color_is_checked_when_called example_host (VBool true) 0
                     "tomato") (world_130 ∅)) as (f & Hf & Hcall).
  exists f. split; [exact Hf|].
  apply (Hcall [VStr "x"] "request" (VBool false)); vm_compute; reflexivity.
Defined.

Lemma instances_are_independent_witness :
  fst (V130.isActivated (VBool true) 0 (VStr "log")
         (snd (V130.enable 1 (snd (V130.disable 1 two_instances_130)))))
  = fst (V130.isActivated (VBool true) 0 (VStr "log")
           (snd (V130.disable 1 two_instances_130))).
Proof.
  apply (proj1 (@instances_are_independent example_host (VBool true)
                  (VStr "log")) 1 0).
  discriminate.
Defined.

Lemma configRules_calls_merge_witness :
  V120._rules (statics (snd (V120.configRules a_true rules_request_off
                               (world_120 rules_error_on)))) !! "request.error"
  = V120._rules (statics (world_120 rules_error_on)) !! "request.error".
Proof.
  apply (proj1 (@configRules_calls_merge example_host a_true));
    vm_compute; reflexivity.
Defined.

Lemma V110_config_entries_are_write_once_witness :
  V110.Logger_options
    (statics (run_each V110.config [Some a_false; None; Some rules_request_off]
                (V110.init a_true))) !! "a"
  = Some (VBool true).
Proof.
  apply (@V110_config_entries_are_write_once example_host "a" (VBool true)).
  vm_compute; reflexivity.
Defined.

Lemma V120_configRules_decides_activation_witness :
  fst (V120.isActivated (VBool true) 0 (VStr "error")
         (snd (V120.configRules ∅ rules_error_off (world_120 rules_error_on))))
  = Return false.
Proof.
  rewrite (@V120_configRules_decides_activation example_host ∅ (VBool true)
             "request" "error" false eq_refl ltac:(discriminate) eq_refl
             rules_error_off 0 (world_120 rules_error_on))
    by (vm_compute; reflexivity).
  reflexivity.
Defined.

Lemma development_flag_gates_everything_witness :
  snd (V130.invoke (load_IS_DEV VNull (VStr "production")) m_log 0 [VStr "x"]
         (world_130 ∅))
  = world_130 ∅.
Proof.
  apply (proj1 (@development_flag_gates_everything example_host VNull
                  (VStr "production"))); reflexivity.
Defined.

Lemma V120_table_always_proxies_witness :
  Call "table" [one_two_three] ∈ console (world_120 ∅) ∨
  Call "table" [one_two_three] = Call "table" [one_two_three].
Proof.
  apply (proj2 (@V120_table_always_proxies example_host (VBool true) 0
                  one_two_three (world_120 ∅))).
  vm_compute. constructor.
Defined.

End More_examples.
